(** * Glint: message routing and conversation persistence

    A shallow embedding of the chat client's script: the key store, the
    keyword classifier, the provider gateway, the media store, the chat
    registry and the chat session, followed by the properties the
    specification states about them. The script exists in two revisions;
    the development follows the one with the DeepSeek / DeepAI gateway,
    which the specification describes, and records in [ScriptJs] the
    classifier and the voice call of the other.

    Conventions of the embedding.
    - A JavaScript string is a [string]: a sequence of bytes, the UTF-8
      encoding of the text. The keyword tables are pure ASCII, and the case
      conversions and [trim] act on the ASCII range only.
    - The browser is explicit state: [World] holds the script's globals,
      [localStorage], the part of the document the script touches, the timer
      queue and the log of outbound requests. What the script cannot decide
      (the clock, the date formatters, the providers' answers) is read from
      the immutable [Browser] record. An [async] function is run to its
      end in one step.
    - A function that may throw returns an [Outcome]; [try ... catch] is
      [try_catch].
    - A text kept in [localStorage] for [JSON.parse] is represented by what
      [JSON.parse] makes of it ([JsonText]); the [innerHTML] of the message
      view is represented by the children it serialises ([Html]).
      [setItem] always succeeds: there is no storage quota.
    - [console] output, scrolling and the drawer's CSS classes are not
      modelled: nothing the script computes depends on them. *)

From Stdlib Require Import ZArith QArith List Ascii String Bool Lia.
From stdpp Require Import base option strings pretty gmap.

Local Open Scope string_scope.
Local Open Scope bool_scope.

(* ================================================================== *)
(** * String primitives *)
(* ================================================================== *)

(** The code of a byte, as used by the case conversions. *)
Definition code (c : ascii) : nat := nat_of_ascii c.

Definition is_upper (c : ascii) : bool := (65 <=? code c)%nat && (code c <=? 90)%nat.
Definition is_lower (c : ascii) : bool := (97 <=? code c)%nat && (code c <=? 122)%nat.

(** [String.prototype.toLowerCase] on one ASCII unit: A..Z go to a..z. *)
Definition lower_char (c : ascii) : ascii :=
  if is_upper c then ascii_of_nat (code c + 32) else c.

(** [String.prototype.toUpperCase] on one ASCII unit: a..z go to A..Z. *)
Definition upper_char (c : ascii) : ascii :=
  if is_lower c then ascii_of_nat (code c - 32) else c.

Fixpoint map_string (f : ascii -> ascii) (s : string) : string :=
  match s with
  | EmptyString => EmptyString
  | String c s' => String (f c) (map_string f s')
  end.

Definition toLowerCase : string -> string := map_string lower_char.
Definition toUpperCase : string -> string := map_string upper_char.

(** [s.startsWith(k)]. *)
Fixpoint startsWith (s k : string) : bool :=
  match k, s with
  | EmptyString, _ => true
  | String a k', String b s' => if Ascii.eqb a b then startsWith s' k' else false
  | String _ _, EmptyString => false
  end.

(** [s.includes(k)]: [k] starts at some position of [s]. *)
Fixpoint includes (s k : string) : bool :=
  startsWith s k ||
  match s with
  | EmptyString => false
  | String _ s' => includes s' k
  end.

(** [array.some(p)]. *)
Definition some {A} (p : A -> bool) (l : list A) : bool := existsb p l.

(* ================================================================== *)
(** * Classifier: [detectApiType] *)
(* ================================================================== *)

Definition imageKeywords : list string :=
  ["image"; "photo"; "picture"; "generate image"; "create image"; "draw";
   "visual"; "painting"; "artwork"].

Definition voiceKeywords : list string :=
  ["voice"; "speech"; "audio"; "record"; "listen"; "speak"; "microphone";
   "sound"; "text to speech"; "tts"].

Definition codingKeywords : list string :=
  ["code"; "function"; "program"; "script"; "algorithm"; "debug"; "error";
   "fix"; "build"; "create"; "develop"; "write"; "make"; "javascript";
   "python"; "html"; "css"; "react"; "node"; "api"; "loop"; "array";
   "object"; "class"; "component"; "database"; "variable"; "syntax"].

Definition detectApiType (message : string) : string :=
  let lowerMsg := toLowerCase message in
  if some (fun keyword => includes lowerMsg keyword) imageKeywords then "image"
  else if some (fun keyword => includes lowerMsg keyword) voiceKeywords then "voice"
  else if some (fun keyword => includes lowerMsg keyword) codingKeywords then "coding"
  else "text".

(* ================================================================== *)
(** * Data model *)
(* ================================================================== *)

(** An entry of the chat registry ([glintChatList]). *)
Record Chat := {
  chat_id : string;
  chat_name : string;
  chat_date : string
}.

(** The [type] field of a stored media object. *)
Inductive MediaType := photo | voice.

(** A stored media object ([photoData] / [voiceData]); only voice
    recordings carry a [duration]. *)
Record MediaAsset := {
  media_id : string;
  media_chatId : string;
  media_data : string;
  media_fileName : string;
  media_type : MediaType;
  media_timestamp : string;
  media_duration : option Z
}.

(** What [JSON.parse] makes of the text kept under a key: the text is not
    JSON ([Malformed], [JSON.parse] throws), it is the JSON text of a falsy
    value ([Falsy]: null, false, 0 or the empty string), or it is
    [JSON.stringify v]. Only values of the shape the script itself writes
    under the key are considered. *)
Inductive JsonText (A : Type) :=
  | Malformed
  | Falsy
  | Stringified (v : A).
Arguments Malformed {A}.
Arguments Falsy {A}.
Arguments Stringified {A} v.

(** The content of an element of the message view. *)
Inductive Content :=
  | TextContent (text : string)   (* el.textContent = text *)
  | InnerHTML (html : string).    (* el.innerHTML = html *)

Record Element := {
  className : string;
  el_content : Content
}.

(** The [innerHTML] of [#messages]: its children, first to last. Serialising
    the children and parsing the text again gives the same children. *)
Definition Html := list Element.

(** The object kept under [glintMediaStorage]: chat id to media array. Chat
    ids naming members of [Object.prototype] are outside the model. *)
Abbreviation MediaStorage := (gmap string (list MediaAsset)).

(** [localStorage], one field per key the script uses; [messages_html] is
    the family of keys ['messages_html_' + chatId]. [None] is an absent key
    ([getItem] returns null). *)
Record LocalStorage := {
  glint_text_api : option string;
  glint_image_api : option string;
  glint_voice_api : option string;
  glint_coding_api : option string;
  selectedLanguage : option string;
  glintChatList : option (JsonText (list Chat));
  glintMediaStorage : option (JsonText MediaStorage);
  messages_html : gmap string Html
}.

(** A live child of [#messages]: an element and its identity. *)
Record Node := {
  node_ref : nat;
  node_el : Element
}.

(** The part of the page the script reads and writes. [page_before] and
    [page_after] are the elements outside [#messages], in document order,
    as far as [querySelector('.welcome-message')] can see them. *)
Record Document := {
  messagesEl : option (list Node);
  chatTitleEl : option string;
  page_before : list Element;
  page_after : list Element;
  next_ref : nat
}.

(** ** The network *)

Inductive RequestBody :=
  | ChatCompletion (model : string) (messages : list (string * string))
                   (max_tokens : Z) (temperature : Q)
  | FormData (fields : list (string * string)).

Record Request := {
  url : string;
  method : string;
  headers : list (string * string);
  body : RequestBody
}.

(** The fields the script reads from a parsed response body. *)
Record ResponseJson := {
  json_message : option string;        (* errorData.message *)
  json_content : option string;        (* data.choices[0].message.content *)
  json_output_url : option string;     (* data.output_url *)
  json_text : option string            (* data.text *)
}.

Record Response := {
  ok : bool;
  status : Z;
  statusText : string;
  response_text : string;                 (* response.text() *)
  response_json : option ResponseJson     (* response.json(); None: rejects *)
}.

(** The [options] argument of the gateway calls. *)
Record Options := {
  systemPrompt : option string;
  opt_max_tokens : option Z;
  opt_temperature : option Q;
  opt_model : option string
}.

Definition no_options : Options :=
  {| systemPrompt := None; opt_max_tokens := None; opt_temperature := None;
     opt_model := None |}.

(** ** Exceptions and outcomes *)

Inductive Exn :=
  | Error (message : string)   (* throw new Error(message) *)
  | SyntaxError                (* JSON.parse, response.json() *)
  | TypeError.                 (* a member read from undefined, a failed fetch *)

Inductive Outcome (A : Type) :=
  | Return (a : A)
  | Throw (e : Exn).
Arguments Return {A} a.
Arguments Throw {A} e.

(** ** The browser and the world *)

(** A callback handed to [setTimeout]. *)
Inductive Task :=
  | RetryAddMessage (text type : string)
  | BotResponse (text apiType : string) (loadingMessage : nat).

Record Browser := {
  clock : nat -> Z;                      (* the n-th reading of the clock, in ms *)
  toLocaleString : Z -> string;          (* en-GB: day, short month, 12-hour time *)
  toISOString : Z -> string;
  respond : nat -> Request -> Outcome Response;  (* answer to the n-th fetch *)
  pushState_supported : bool;
  engine_message : Exn -> string         (* error.message of a built-in error *)
}.

Record World := {
  browser : Browser;
  clock_reads : nat;
  currentChatId : option string;
  localStorage : LocalStorage;
  document : Document;
  timers : list (nat * Task);
  fetched : list Request;
  search : string;                  (* window.location.search after pushState *)
  navigation : option string        (* pending window.location.replace *)
}.

(** ** Field updates *)

Definition set_clock_reads (n : nat) (w : World) : World :=
  {| browser := browser w; clock_reads := n; currentChatId := currentChatId w;
     localStorage := localStorage w; document := document w; timers := timers w;
     fetched := fetched w; search := search w; navigation := navigation w |}.

Definition set_currentChatId (c : option string) (w : World) : World :=
  {| browser := browser w; clock_reads := clock_reads w; currentChatId := c;
     localStorage := localStorage w; document := document w; timers := timers w;
     fetched := fetched w; search := search w; navigation := navigation w |}.

Definition set_localStorage (ls : LocalStorage) (w : World) : World :=
  {| browser := browser w; clock_reads := clock_reads w;
     currentChatId := currentChatId w; localStorage := ls;
     document := document w; timers := timers w; fetched := fetched w;
     search := search w; navigation := navigation w |}.

Definition set_document (d : Document) (w : World) : World :=
  {| browser := browser w; clock_reads := clock_reads w;
     currentChatId := currentChatId w; localStorage := localStorage w;
     document := d; timers := timers w; fetched := fetched w;
     search := search w; navigation := navigation w |}.

Definition set_timers (t : list (nat * Task)) (w : World) : World :=
  {| browser := browser w; clock_reads := clock_reads w;
     currentChatId := currentChatId w; localStorage := localStorage w;
     document := document w; timers := t; fetched := fetched w;
     search := search w; navigation := navigation w |}.

Definition set_fetched (l : list Request) (w : World) : World :=
  {| browser := browser w; clock_reads := clock_reads w;
     currentChatId := currentChatId w; localStorage := localStorage w;
     document := document w; timers := timers w; fetched := l;
     search := search w; navigation := navigation w |}.

Definition set_search (s : string) (w : World) : World :=
  {| browser := browser w; clock_reads := clock_reads w;
     currentChatId := currentChatId w; localStorage := localStorage w;
     document := document w; timers := timers w; fetched := fetched w;
     search := s; navigation := navigation w |}.

Definition set_navigation (n : option string) (w : World) : World :=
  {| browser := browser w; clock_reads := clock_reads w;
     currentChatId := currentChatId w; localStorage := localStorage w;
     document := document w; timers := timers w; fetched := fetched w;
     search := search w; navigation := n |}.

Definition set_glintChatList (v : option (JsonText (list Chat)))
    (ls : LocalStorage) : LocalStorage :=
  {| glint_text_api := glint_text_api ls; glint_image_api := glint_image_api ls;
     glint_voice_api := glint_voice_api ls; glint_coding_api := glint_coding_api ls;
     selectedLanguage := selectedLanguage ls; glintChatList := v;
     glintMediaStorage := glintMediaStorage ls; messages_html := messages_html ls |}.

Definition set_glintMediaStorage (v : option (JsonText MediaStorage))
    (ls : LocalStorage) : LocalStorage :=
  {| glint_text_api := glint_text_api ls; glint_image_api := glint_image_api ls;
     glint_voice_api := glint_voice_api ls; glint_coding_api := glint_coding_api ls;
     selectedLanguage := selectedLanguage ls; glintChatList := glintChatList ls;
     glintMediaStorage := v; messages_html := messages_html ls |}.

Definition set_messages_html (m : gmap string Html) (ls : LocalStorage)
    : LocalStorage :=
  {| glint_text_api := glint_text_api ls; glint_image_api := glint_image_api ls;
     glint_voice_api := glint_voice_api ls; glint_coding_api := glint_coding_api ls;
     selectedLanguage := selectedLanguage ls; glintChatList := glintChatList ls;
     glintMediaStorage := glintMediaStorage ls; messages_html := m |}.

Definition set_messagesEl (m : option (list Node)) (d : Document) : Document :=
  {| messagesEl := m; chatTitleEl := chatTitleEl d; page_before := page_before d;
     page_after := page_after d; next_ref := next_ref d |}.

Definition set_chatTitleEl (t : option string) (d : Document) : Document :=
  {| messagesEl := messagesEl d; chatTitleEl := t; page_before := page_before d;
     page_after := page_after d; next_ref := next_ref d |}.

Definition set_next_ref (n : nat) (d : Document) : Document :=
  {| messagesEl := messagesEl d; chatTitleEl := chatTitleEl d;
     page_before := page_before d; page_after := page_after d; next_ref := n |}.

(* ================================================================== *)
(** * The script monad: state and exceptions *)
(* ================================================================== *)

Definition M (A : Type) : Type := World -> Outcome A * World.

Definition ret {A} (a : A) : M A := fun w => (Return a, w).

Definition bind {A B} (c : M A) (k : A -> M B) : M B :=
  fun w => match c w with
           | (Return a, w') => k a w'
           | (Throw e, w') => (Throw e, w')
           end.

Definition throw {A} (e : Exn) : M A := fun w => (Throw e, w).

(** [try { c } catch (e) { h e }]: the handler runs in the state the body
    left behind. *)
Definition try_catch {A} (c : M A) (h : Exn -> M A) : M A :=
  fun w => match c w with
           | (Return a, w') => (Return a, w')
           | (Throw e, w') => h e w'
           end.

Definition gets {A} (f : World -> A) : M A := fun w => (Return (f w), w).
Definition modify (f : World -> World) : M unit := fun w => (Return tt, f w).
Definition lift {A} (o : Outcome A) : M A := fun w => (o, w).

Notation "'let!' x ':=' c 'in' k" := (bind c (fun x => k))
  (at level 10, x name, c at level 100, k at level 200,
   format "'[v' 'let!'  x  ':='  c  'in' '/' k ']'").

(** [Date.now()] and [new Date()]: the next reading of the clock. *)
Definition Date_now : M Z :=
  fun w => (Return (clock (browser w) (clock_reads w)),
            set_clock_reads (S (clock_reads w)) w).

(** [v || d] for a string that may be null. *)
Definition or_else (v : option string) (d : string) : string :=
  match v with
  | Some s => if String.eqb s "" then d else s
  | None => d
  end.

(** [JSON.parse(localStorage.getItem(key))]: null for an absent key, since
    [JSON.parse(null)] is null. [None] stands for a falsy result. *)
Definition JSON_parse {A} (item : option (JsonText A)) : M (option A) :=
  match item with
  | None => ret None
  | Some Malformed => throw SyntaxError
  | Some Falsy => ret None
  | Some (Stringified v) => ret (Some v)
  end.

(** [error.message]. *)
Definition message_of (b : Browser) (e : Exn) : string :=
  match e with
  | Error m => m
  | _ => engine_message b e
  end.

(** [s.trim()] on the ASCII white space: space, tab, line feed, vertical
    tab, form feed and carriage return. *)
Definition is_space (c : ascii) : bool :=
  (code c =? 32)%nat || ((9 <=? code c)%nat && (code c <=? 13)%nat).

Fixpoint trimStart (s : string) : string :=
  match s with
  | EmptyString => EmptyString
  | String c s' => if is_space c then trimStart s' else s
  end.

Fixpoint trimEnd (s : string) : string :=
  match s with
  | EmptyString => EmptyString
  | String c s' =>
      let r := trimEnd s' in
      if is_space c && String.eqb r "" then EmptyString else String c r
  end.

Definition trim (s : string) : string := trimEnd (trimStart s).

(** The line feed and the double quote, for the template literals. *)
Definition nl : string := String (ascii_of_nat 10) EmptyString.
Definition dq : string := String (ascii_of_nat 34) EmptyString.

(** [s.replace(/\n/g, '<br>')]. *)
Fixpoint replace_newlines (s : string) : string :=
  match s with
  | EmptyString => EmptyString
  | String c s' =>
      if (code c =? 10)%nat then "<br>" +:+ replace_newlines s'
      else String c (replace_newlines s')
  end.

(* ================================================================== *)
(** * KeyStore: [getApiKey] *)
(* ================================================================== *)

Definition getApiKey (ls : LocalStorage) (type : string) : string :=
  if String.eqb type "text" then or_else (glint_text_api ls) ""
  else if String.eqb type "image" then or_else (glint_image_api ls) ""
  else if String.eqb type "voice" then or_else (glint_voice_api ls) ""
  else if String.eqb type "coding" then or_else (glint_coding_api ls) ""
  else or_else (glint_text_api ls) "".

(* ================================================================== *)
(** * ProviderGateway: [makeApiCall] and the four provider calls *)
(* ================================================================== *)

(** What a provider call returns: a string, or [None] for undefined. *)
Definition Reply := option string.

(** [await fetch(url, init)]: one more entry in the request log. *)
Definition fetch (r : Request) : M Response :=
  fun w => (respond (browser w) (length (fetched w)) r,
            set_fetched (fetched w ++ [r]) w).

(** [options.max_tokens || d] and [options.temperature || d]. *)
Definition max_tokens_or (o : option Z) (d : Z) : Z :=
  match o with
  | Some n => if (n =? 0)%Z then d else n
  | None => d
  end.

Definition temperature_or (o : option Q) (d : Q) : Q :=
  match o with
  | Some t => if Qeq_bool t 0 then d else t
  | None => d
  end.

Definition deepSeekUrl : string := "https://api.deepseek.com/v1/chat/completions".
Definition deepAiUrl : string := "https://api.deepai.org/api/text2img".

(** [await response.json().catch(() => ({ message: fallback }))], then
    [.message]. *)
Definition errorData_message (response : Response) (fallback : string)
    : option string :=
  match response_json response with
  | Some data => json_message data
  | None => Some fallback
  end.

(** [data.choices[0].message.content] of [await response.json()]. *)
Definition completion_content (response : Response) : M string :=
  match response_json response with
  | None => throw SyntaxError
  | Some data =>
      match json_content data with
      | None => throw TypeError
      | Some c => ret c
      end
  end.

Definition callTextApi (message apiKey : string) (options : Options) : M Reply :=
  let! response := fetch
    {| url := deepSeekUrl;
       method := "POST";
       headers := [("Content-Type", "application/json");
                   ("Authorization", "Bearer " +:+ apiKey)];
       body := ChatCompletion "deepseek-chat"
                 [("system",
                   "You are GLINT, an AI assistant built by Guru (an app developer). You respond concisely in Roman Urdu. "
                   +:+ or_else (systemPrompt options) "");
                  ("user", message)]
                 (max_tokens_or (opt_max_tokens options) 512)
                 (temperature_or (opt_temperature options) (7 # 10)) |} in
  if negb (ok response) then
    throw (Error ("DeepSeek Text API Error: " +:+ pretty (status response) +:+ " - "
                  +:+ or_else (errorData_message response "Unknown DeepSeek Text API error")
                              (statusText response)))
  else
    let! content := completion_content response in
    ret (Some (trim content)).

Definition callImageApi (prompt apiKey : string) (options : Options) : M Reply :=
  let! response := fetch
    {| url := deepAiUrl;
       method := "POST";
       headers := [("api-key", apiKey)];
       body := FormData [("text", prompt)] |} in
  if negb (ok response) then
    throw (Error ("DeepAI Image API Error: " +:+ pretty (status response) +:+ " - "
                  +:+ String.substring 0 100 (response_text response) +:+ "..."))
  else
    match response_json response with
    | None => throw SyntaxError
    | Some data => ret (json_output_url data)
    end.

Definition voiceErrorRomanUrdu : string :=
  "❌ Voice API (Play.ht/EdenAI) browser se direct kaam nahi karta. Iske liye aapko backend proxy ya special SDK ki zaroorat padegi. Jab tak yeh fix nahi hota, Voice feature kaam nahi karega.".

Definition voiceErrorEnglish : string :=
  "❌ Voice API (Play.ht/EdenAI) cannot be called directly from the browser. A backend proxy or specialized SDK is required. The Voice feature will not work until then.".

Definition callVoiceApi (textToSpeak apiKey : string) (options : Options) : M Reply :=
  let! language :=
    gets (fun w => or_else (selectedLanguage (localStorage w)) "roman-urdu") in
  let errorMessage :=
    if String.eqb language "roman-urdu" then voiceErrorRomanUrdu
    else voiceErrorEnglish in
  throw (Error errorMessage).

Definition callCodingApi (message apiKey : string) (options : Options) : M Reply :=
  let! response := fetch
    {| url := deepSeekUrl;
       method := "POST";
       headers := [("Content-Type", "application/json");
                   ("Authorization", "Bearer " +:+ apiKey)];
       body := ChatCompletion "deepseek-coder"
                 [("system",
                   "You are an expert programming assistant named GLINT. Provide clean, efficient code with explanations in a Roman Urdu/Urdu blend where possible. Always use proper syntax highlighting and code formatting.");
                  ("user", message)]
                 (max_tokens_or (opt_max_tokens options) 2048)
                 (temperature_or (opt_temperature options) (3 # 10)) |} in
  if negb (ok response) then
    throw (Error ("DeepSeek Coding API Error: " +:+ pretty (status response) +:+ " - "
                  +:+ or_else (errorData_message response "Unknown DeepSeek Coding API error")
                              (statusText response)))
  else
    let! content := completion_content response in
    ret (Some (trim content)).

(** The message of the error thrown for a missing key. *)
Definition notConfigured (type : string) : string :=
  toUpperCase type +:+ " API key not configured. Please check settings.".

Definition makeApiCall (type content : string) (options : Options) : M Reply :=
  let! apiKey := gets (fun w => getApiKey (localStorage w) type) in
  if String.eqb apiKey "" then throw (Error (notConfigured type))
  else
    try_catch
      (if String.eqb type "text" then callTextApi content apiKey options
       else if String.eqb type "image" then callImageApi content apiKey options
       else if String.eqb type "voice" then callVoiceApi content apiKey options
       else if String.eqb type "coding" then callCodingApi content apiKey options
       else throw (Error "Unknown API type"))
      (fun error => throw error).

(** ** The example revision

    [script.js] is the revision of the same script that still carries the
    example gateway ("Example structure", against the OpenAI endpoints).
    Its [getApiKey], [makeApiCall], media and chat registry functions and
    the guard of [addMessage] are written as above. Its classifier lacks
    the last two voice keywords, and its voice call posts the content to a
    transcription endpoint. *)
Module ScriptJs.

Definition voiceKeywords : list string :=
  ["voice"; "speech"; "audio"; "record"; "listen"; "speak"; "microphone";
   "sound"].

Definition detectApiType (message : string) : string :=
  let lowerMsg := toLowerCase message in
  if some (fun keyword => includes lowerMsg keyword) imageKeywords then "image"
  else if some (fun keyword => includes lowerMsg keyword) voiceKeywords then "voice"
  else if some (fun keyword => includes lowerMsg keyword) codingKeywords then "coding"
  else "text".


Definition callVoiceApi (audioData apiKey : string) (options : Options) : M Reply :=
  let formData :=
    FormData [("file", audioData);
              ("model", or_else (opt_model options) "whisper-1")] in
  let! response := fetch
    {| url := "https://api.openai.com/v1/audio/transcriptions";
       method := "POST";
       headers := [("Authorization", "Bearer " +:+ apiKey)];
       body := formData |} in
  if negb (ok response) then
    throw (Error ("Voice API error: " +:+ pretty (status response)))
  else
    match response_json response with
    | None => throw SyntaxError
    | Some data => ret (json_text data)
    end.

End ScriptJs.

(* ================================================================== *)
(** * DemoResponder: [getDemoResponse] *)
(* ================================================================== *)

(** [table[language] || table['english']] for a table with the three
    languages. *)
Definition by_language (language romanUrdu urdu english : string) : string :=
  if String.eqb language "roman-urdu" then romanUrdu
  else if String.eqb language "urdu" then urdu
  else english.

(** The template [header\n\nlabel "userMessage"\n\nfooter]. *)
Definition demo_card (header label userMessage footer : string) : string :=
  header +:+ nl +:+ nl +:+ label +:+ dq +:+ userMessage +:+ dq +:+ nl +:+ nl +:+ footer.

(** [responses[apiType]] is undefined outside the four types, and reading
    [language] from it throws. *)
Definition getDemoResponse (language apiType userMessage : string)
    : Outcome string :=
  if String.eqb apiType "text" then
    Return (by_language language
      "Main tumhara message receive kar liya! Yeh Text API ka demo response hai, Guru. Text API key configure karein actual AI responses ke liye."
      "میں نے آپ کا پیغام وصول کر لیا ہے! یہ ٹیکسٹ API کا ڈیمو جواب ہے، گرو۔ حقیقی AI جوابات کے لیے ٹیکسٹ API کنفیگر کریں۔"
      "I have received your message! This is a Text API demo response. Configure Text API key for actual AI responses.")
  else if String.eqb apiType "image" then
    Return (by_language language
      (demo_card "🖼️ Image Generation Demo" "Prompt: " userMessage
         "(Actual image generation ke liye Image API key configure karein)")
      (demo_card "🖼️ امیج جنریشن ڈیمو" "پرامپٹ: " userMessage
         "(حقیقی امیج جنریشن کے لیے امیج API کنفیگر کریں)")
      (demo_card "🖼️ Image Generation Demo" "Prompt: " userMessage
         "(Configure Image API key for actual image generation)"))
  else if String.eqb apiType "voice" then
    Return (by_language language
      (demo_card "🎤 Voice Processing Demo" "Request: " userMessage
         "(Actual voice processing ke liye Voice API key configure karein)")
      (demo_card "🎤 وائس پروسیسنگ ڈیمو" "درخواست: " userMessage
         "(حقیقی وائس پروسیسنگ کے لیے وائس API کنفیگر کریں)")
      (demo_card "🎤 Voice Processing Demo" "Request: " userMessage
         "(Configure Voice API key for actual voice processing)"))
  else if String.eqb apiType "coding" then
    Return (by_language language
      (demo_card "💻 Code Generation Demo" "Request: " userMessage
         "(Actual code generation ke liye Coding API key configure karein)")
      (demo_card "💻 کوڈ جنریشن ڈیمو" "درخواست: " userMessage
         "(حقیقی کوڈ جنریشن کے لیے کوڈنگ API کنفیگر کریں)")
      (demo_card "💻 Code Generation Demo" "Request: " userMessage
         "(Configure Coding API key for actual code generation)"))
  else Throw TypeError.

(* ================================================================== *)
(** * Media storage *)
(* ================================================================== *)

(** The value of a chat id that passes [if (!currentChatId)]: neither null
    nor the empty string. *)
Definition truthy (v : option string) : option string :=
  match v with
  | Some s => if String.eqb s "" then None else Some s
  | None => None
  end.

(** [if (!mediaStorage[chatId]) mediaStorage[chatId] = [];] followed by
    [mediaStorage[chatId].push(item)]. *)
Definition push_media (chatId : string) (item : MediaAsset)
    (mediaStorage : MediaStorage) : MediaStorage :=
  let initialised :=
    match mediaStorage !! chatId with
    | Some _ => mediaStorage
    | None => <[chatId := []]> mediaStorage
    end in
  alter (fun items => (items ++ [item])%list) chatId initialised.

Definition read_mediaStorage : M MediaStorage :=
  let! item := gets (fun w => glintMediaStorage (localStorage w)) in
  let! parsed := JSON_parse item in
  ret (default ∅ parsed).

Definition write_mediaStorage (mediaStorage : MediaStorage) : M unit :=
  modify (fun w =>
    set_localStorage
      (set_glintMediaStorage (Some (Stringified mediaStorage)) (localStorage w)) w).

Definition savePhotoToStorage (imageData fileName : string) : M (option string) :=
  try_catch
    (let! current := gets currentChatId in
     match truthy current with
     | None => ret None
     | Some chatId =>
         let! now := Date_now in
         let photoId := "photo-" +:+ pretty now in
         let! date := Date_now in
         let! timestamp := gets (fun w => toISOString (browser w) date) in
         let photoData :=
           {| media_id := photoId; media_chatId := chatId;
              media_data := imageData; media_fileName := fileName;
              media_type := photo; media_timestamp := timestamp;
              media_duration := None |} in
         let! mediaStorage := read_mediaStorage in
         let! _ := write_mediaStorage (push_media chatId photoData mediaStorage) in
         ret (Some photoId)
     end)
    (fun error => ret None).

(** A recorded blob, as far as the script can tell: the data URL a
    [FileReader] reads from it, or [None] when reading fails. *)
Record Blob := { dataURL : option string }.

(** How the promise of [saveVoiceToStorage] stands when the executor
    returns. *)
Inductive VoicePromise :=
  | Rejected (reason : string)
  | Reading (audioBlob : Blob) (fileName : string).

(** The executor of [saveVoiceToStorage]: it rejects at once or leaves a
    [FileReader] reading the blob. *)
Definition saveVoiceToStorage (audioBlob : Blob) (fileName : string)
    : M VoicePromise :=
  let! current := gets currentChatId in
  match truthy current with
  | None => ret (Rejected "Cannot save voice: No current chat ID")
  | Some _ => ret (Reading audioBlob fileName)
  end.

(** [reader.onload] of [saveVoiceToStorage], with [result] the data URL
    read: the value the promise is resolved with. It reads [currentChatId]
    again (a null id is the property key ['null']); nothing catches what it
    throws. *)
Definition reader_onload (result fileName : string) : M string :=
  let! now := Date_now in
  let voiceId := "voice-" +:+ pretty now in
  let! current := gets currentChatId in
  let chatId := default "null" current in
  let! date := Date_now in
  let! timestamp := gets (fun w => toISOString (browser w) date) in
  let voiceData :=
    {| media_id := voiceId; media_chatId := chatId;
       media_data := result; media_fileName := fileName;
       media_type := voice; media_timestamp := timestamp;
       media_duration := Some 0%Z |} in
  let! mediaStorage := read_mediaStorage in
  let! _ := write_mediaStorage (push_media chatId voiceData mediaStorage) in
  ret voiceId.

Definition getChatMedia : M (list MediaAsset) :=
  try_catch
    (let! current := gets currentChatId in
     match truthy current with
     | None => ret []
     | Some chatId =>
         let! mediaStorage := read_mediaStorage in
         ret (default [] (mediaStorage !! chatId))
     end)
    (fun error => ret []).

(* ================================================================== *)
(** * The message view *)
(* ================================================================== *)

(** The class names of an element: [className] split at white space. *)
Fixpoint class_tokens (s token : string) : list string :=
  match s with
  | EmptyString => if String.eqb token "" then [] else [token]
  | String c s' =>
      if is_space c
      then (if String.eqb token "" then class_tokens s' ""
            else token :: class_tokens s' "")
      else class_tokens s' (token +:+ String c EmptyString)
  end.

Definition has_class (cls : string) (e : Element) : bool :=
  existsb (String.eqb cls) (class_tokens (className e) "").

(** [document.querySelector('.welcome-message')]: the first such element
    in document order. *)
Definition querySelector_welcome (d : Document) : option Element :=
  List.find (has_class "welcome-message")
    (page_before d ++ map node_el (default [] (messagesEl d)) ++ page_after d)%list.

(** Children parsed from markup are new nodes. *)
Fixpoint fresh_nodes (n : nat) (h : Html) : list Node :=
  match h with
  | [] => []
  | e :: h' => {| node_ref := n; node_el := e |} :: fresh_nodes (S n) h'
  end.

(** [messagesEl.innerHTML = h], for the element found by the caller. *)
Definition set_innerHTML (h : Html) : M unit :=
  modify (fun w =>
    let d := document w in
    set_document
      (set_next_ref (next_ref d + length h)
         (set_messagesEl (Some (fresh_nodes (next_ref d) h)) d)) w).

(** [messagesEl.innerHTML], read. *)
Definition innerHTML (d : Document) : Html :=
  map node_el (default [] (messagesEl d)).

(** [document.createElement('div')]: the identity of the new element. *)
Definition createElement : M nat :=
  fun w => (Return (next_ref (document w)),
            set_document (set_next_ref (S (next_ref (document w))) (document w)) w).

(** [messagesEl.prepend(el)], for the element found by the caller. *)
Definition prepend (ref : nat) (e : Element) : M unit :=
  modify (fun w =>
    let d := document w in
    match messagesEl d with
    | Some children =>
        set_document
          (set_messagesEl (Some ({| node_ref := ref; node_el := e |} :: children)) d) w
    | None => w
    end).

(** [el.remove()]. *)
Definition remove (ref : nat) : M unit :=
  modify (fun w =>
    let d := document w in
    match messagesEl d with
    | Some children =>
        set_document
          (set_messagesEl
             (Some (List.filter (fun n => negb (Nat.eqb (node_ref n) ref)) children)) d) w
    | None => w
    end).

(** [setTimeout(task, delay)]. *)
Definition setTimeout (task : Task) (delay : nat) : M unit :=
  modify (fun w => set_timers (timers w ++ [(delay, task)]) w).

(* ================================================================== *)
(** * ConversationStore: [startNewChat], [loadChat], [saveCurrentChat] *)
(* ================================================================== *)

Definition read_chatList : M (list Chat) :=
  let! item := gets (fun w => glintChatList (localStorage w)) in
  let! parsed := JSON_parse item in
  ret (default [] parsed).

Definition loadChat (chatId : string) : M unit :=
  let! messages := gets (fun w => messagesEl (document w)) in
  match messages with
  | None => ret tt
  | Some _ =>
      let! _ := modify (set_currentChatId (Some chatId)) in
      let! chatHistoryHTML :=
        gets (fun w => messages_html (localStorage w) !! chatId) in
      let! _ :=
        match chatHistoryHTML with
        | Some (e :: h) =>
            let! _ := set_innerHTML (e :: h) in
            let! chatMedia := getChatMedia in
            ret tt
        | _ =>
            let! welcome := gets (fun w => querySelector_welcome (document w)) in
            set_innerHTML (match welcome with Some e => [e] | None => [] end)
        end in
      let! chatList := read_chatList in
      let currentChatData :=
        List.find (fun c => String.eqb (chat_id c) chatId) chatList in
      modify (fun w =>
        match chatTitleEl (document w) with
        | Some _ =>
            set_document
              (set_chatTitleEl
                 (Some (match currentChatData with
                        | Some c => chat_name c
                        | None => "Glint Chat"
                        end)) (document w)) w
        | None => w
        end)
  end.

Definition startNewChat (shouldReload : bool) : M unit :=
  let! now := Date_now in
  let newId := "chat-" +:+ pretty now in
  let! named := Date_now in
  let! chatName := gets (fun w => "Nai Chat " +:+ toLocaleString (browser w) named) in
  let! chatList := read_chatList in
  let! dated := Date_now in
  let! date := gets (fun w => toISOString (browser w) dated) in
  let chatList :=
    {| chat_id := newId; chat_name := chatName; chat_date := date |} :: chatList in
  let! _ := modify (fun w =>
    set_localStorage
      (set_glintChatList (Some (Stringified chatList)) (localStorage w)) w) in
  if shouldReload then
    modify (set_navigation (Some ("index.html?chatId=" +:+ newId)))
  else
    let! _ := modify (fun w =>
      if pushState_supported (browser w)
      then set_search ("?chatId=" +:+ newId) w else w) in
    let! _ := modify (set_currentChatId (Some newId)) in
    loadChat newId.

Definition saveCurrentChat : M unit :=
  let! current := gets currentChatId in
  match truthy current with
  | None => ret tt
  | Some chatId =>
      modify (fun w =>
        match messagesEl (document w) with
        | Some _ =>
            set_localStorage
              (set_messages_html
                 (<[chatId := innerHTML (document w)]> (messages_html (localStorage w)))
                 (localStorage w)) w
        | None => w
        end)
  end.

(* ================================================================== *)
(** * ChatSession: [addMessage] and its timers *)
(* ================================================================== *)

Definition addMessage (text type : string) : M unit :=
  try_catch
    (let! messages := gets (fun w => messagesEl (document w)) in
     let! current := gets currentChatId in
     match messages, truthy current with
     | Some _, Some _ =>
         let! messageDiv := createElement in
         let! _ := prepend messageDiv
           {| className := "bubble " +:+ type; el_content := TextContent text |} in
         if String.eqb type "user" then
           let apiType := detectApiType text in
           let! loadingMessage := createElement in
           let! _ := prepend loadingMessage
             {| className := "bubble bot loading-message";
                el_content := InnerHTML
                  ("<span class=" +:+ dq +:+ "spinner" +:+ dq +:+ "></span> "
                   +:+ toUpperCase apiType +:+ " API se jawab aa raha hai...") |} in
           setTimeout (BotResponse text apiType loadingMessage) 1000
         else ret tt
     | _, _ =>
         if String.eqb type "user" then
           let! _ := startNewChat false in
           setTimeout (RetryAddMessage text type) 500
         else ret tt
     end)
    (fun err => ret tt).

Definition indent14 : string := "              ".

(** The markup of a generated image. *)
Definition generatedImage (botResponse text : string) : string :=
  nl +:+ indent14 +:+ "<strong>🖼️ Generated Image:</strong><br>"
  +:+ nl +:+ indent14 +:+ "<img src=" +:+ dq +:+ botResponse +:+ dq
  +:+ " alt=" +:+ dq +:+ "Generated image" +:+ dq
  +:+ " style=" +:+ dq +:+ "max-width: 100%; border-radius: 10px; margin: 10px 0;" +:+ dq
  +:+ " />"
  +:+ nl +:+ indent14 +:+ "<br><em>Prompt: " +:+ dq +:+ text +:+ dq +:+ "</em>"
  +:+ nl +:+ "            ".

(** The asynchronous arrow [addMessage] hands to [setTimeout(.., 1000)]. *)
Definition botResponseTask (text apiType : string) (loadingMessage : nat) : M unit :=
  try_catch
    (let! apiKey := gets (fun w => getApiKey (localStorage w) apiType) in
     let! botResponse :=
       if negb (String.eqb apiKey "") then makeApiCall apiType text no_options
       else
         let! selectedLang :=
           gets (fun w => or_else (selectedLanguage (localStorage w)) "english") in
         let! demo := lift (getDemoResponse selectedLang apiType text) in
         ret (Some demo) in
     let! _ := remove loadingMessage in
     let! botMessage := createElement in
     let! markup :=
       match botResponse with
       | Some r =>
           if String.eqb apiType "image" && negb (String.eqb r "")
              && startsWith r "http"
           then ret (generatedImage r text)
           else ret (replace_newlines r)
       | None => throw TypeError
       end in
     let! _ := prepend botMessage
       {| className := "bubble bot"; el_content := InnerHTML markup |} in
     saveCurrentChat)
    (fun error =>
     let! _ := remove loadingMessage in
     let! errorMessage := createElement in
     let! message := gets (fun w => message_of (browser w) error) in
     let! _ := prepend errorMessage
       {| className := "bubble bot error";
          el_content := TextContent
            (if String.eqb apiType "voice" && includes message "backend proxy"
             then message
             else "❌ API Error: " +:+ message
                  +:+ ". Please check your API configuration.") |} in
     saveCurrentChat).

Definition runTask (task : Task) : M unit :=
  match task with
  | RetryAddMessage text type => addMessage text type
  | BotResponse text apiType loadingMessage =>
      botResponseTask text apiType loadingMessage
  end.

(** The [n]-th pending timer fires. *)
Definition fireTimer (n : nat) : M unit :=
  let! pending := gets timers in
  match pending !! n with
  | Some (_, task) =>
      let! _ := modify (set_timers (take n pending ++ drop (S n) pending)%list) in
      runTask task
  | None => ret tt
  end.

(** The chat page is opened (or reloaded) on [page] with the given
    [chatId] query parameter: the script's globals start afresh,
    [localStorage] persists, and the [DOMContentLoaded] handler loads the
    requested chat or starts a new one. *)
Definition DOMContentLoaded (requestedChatId : option string) : M unit :=
  try_catch
    (match truthy requestedChatId with
     | Some chatId =>
         let! _ := modify (set_currentChatId (Some chatId)) in
         loadChat chatId
     | None => startNewChat false
     end)
    (fun err => ret tt).

Definition openPage (page : Document) (requestedChatId : option string)
    (w : World) : World :=
  snd (DOMContentLoaded requestedChatId
         (set_navigation None
            (set_search
               (match requestedChatId with
                | Some chatId => "?chatId=" +:+ chatId
                | None => ""
                end)
               (set_timers [] (set_currentChatId None (set_document page w)))))).

(* ================================================================== *)
(** * Vocabulary of the specification *)
(* ================================================================== *)

(** The four request categories. *)
Definition categories : list string := ["text"; "image"; "voice"; "coding"].

(** Two units are the same letter: they are equal, or one is an upper-case
    letter and the other the lower-case letter 32 places on. *)
Definition same_letter (a b : ascii) : Prop :=
  a = b \/
  (is_upper a = true /\ code b = code a + 32) \/
  (is_upper b = true /\ code a = code b + 32).

(** Two strings differ in the case of letters only. *)
Fixpoint equal_ignoring_case (s t : string) : Prop :=
  match s, t with
  | EmptyString, EmptyString => True
  | String a s', String b t' => same_letter a b /\ equal_ignoring_case s' t'
  | _, _ => False
  end.

(** [keyword] occurs in [message] up to the case of letters: some segment
    of [message] differs from it in case only. *)
Definition occurs_ignoring_case (keyword message : string) : Prop :=
  exists pre segment post,
    message = pre +:+ segment +:+ post /\
    equal_ignoring_case segment keyword.

(** [message] contains a keyword of the set. *)
Definition mentions (keywords : list string) (message : string) : Prop :=
  exists keyword, In keyword keywords /\ occurs_ignoring_case keyword message.

(** The error taxonomy, read off the errors the gateway throws. *)
Definition ConfigurationError (e : Exn) : Prop :=
  exists type, e = Error (notConfigured type).

Definition TransportUnsupportedError (e : Exn) : Prop :=
  e = Error voiceErrorRomanUrdu \/ e = Error voiceErrorEnglish.

(** The chat registry [localStorage] holds: the list [JSON.parse(..) || []]
    gives when the text can be read, no chat when it cannot. *)
Definition registry (w : World) : list Chat :=
  match glintChatList (localStorage w) with
  | Some (Stringified chatList) => chatList
  | _ => []
  end.

(** The media index [localStorage] holds: the object
    [JSON.parse(..) || {}] gives when the text can be read, the empty one
    when it cannot. *)
Definition mediaStorage_of (ls : LocalStorage) : MediaStorage :=
  match glintMediaStorage ls with
  | Some (Stringified mediaStorage) => mediaStorage
  | _ => ∅
  end.

(** The media list persisted for a chat, as [getChatMedia] reads it. *)
Definition mediaOf (w : World) (chatId : string) : list MediaAsset :=
  default [] (mediaStorage_of (localStorage w) !! chatId).

(** The persisted history of a chat. *)
Definition historyOf (w : World) (chatId : string) : Html :=
  default [] (messages_html (localStorage w) !! chatId).

(** ** Sample worlds *)

(** A browser whose clock stands still at one millisecond, with no
    network. *)
Definition still_browser : Browser :=
  {| clock := fun _ => 1700000000000%Z;
     toLocaleString := pretty;
     toISOString := pretty;
     respond := fun _ _ => Throw TypeError;
     pushState_supported := true;
     engine_message := fun _ => "" |}.

Definition empty_storage : LocalStorage :=
  {| glint_text_api := None; glint_image_api := None; glint_voice_api := None;
     glint_coding_api := None; selectedLanguage := None; glintChatList := None;
     glintMediaStorage := None; messages_html := ∅ |}.

(** The chat page before any message. *)
Definition chat_page : Document :=
  {| messagesEl := Some []; chatTitleEl := Some "";
     page_before := []; page_after := []; next_ref := 0 |}.

(** A first visit: nothing stored, no chat active. *)
Definition first_visit : World :=
  {| browser := still_browser; clock_reads := 0; currentChatId := None;
     localStorage := empty_storage; document := chat_page; timers := [];
     fetched := []; search := ""; navigation := None |}.

(** The same, with a chat registry that is not JSON. *)
Definition corrupt_registry : World :=
  set_localStorage (set_glintChatList (Some Malformed) empty_storage) first_visit.

(** The same, with a media index that is not JSON and a chat active. *)
Definition corrupt_media : World :=
  set_currentChatId (Some "chat-1")
    (set_localStorage (set_glintMediaStorage (Some Malformed) empty_storage)
       first_visit).

(** The language the voice gateway reports in. *)
Definition voiceLanguage (w : World) : string :=
  or_else (selectedLanguage (localStorage w)) "roman-urdu".




(** ** What the store operations leave behind *)

(** The markup [loadChat] puts in the view: the persisted history of the
    chat when there is one, the welcome message of the page otherwise. *)
Definition loaded_view (w : World) (chatId : string) : Html :=
  match messages_html (localStorage w) !! chatId with
  | Some (e :: h) => e :: h
  | _ => match querySelector_welcome (document w) with
         | Some e => [e]
         | None => []
         end
  end.

(** The world once [loadChat] has pointed the session at [chatId] and
    filled the view. *)
Definition view_loaded (chatId : string) (w : World) : World :=
  set_document
    (set_next_ref (next_ref (document w) + length (loaded_view w chatId))
       (set_messagesEl
          (Some (fresh_nodes (next_ref (document w)) (loaded_view w chatId)))
          (document w)))
    (set_currentChatId (Some chatId) w).

(** The world once [loadChat] has written the chat's name in the header. *)
Definition titled (chatId : string) (w : World) : World :=
  match chatTitleEl (document w) with
  | Some _ =>
      set_document
        (set_chatTitleEl
           (Some (match List.find (fun c => String.eqb (chat_id c) chatId) (registry w) with
                  | Some c => chat_name c
                  | None => "Glint Chat"
                  end)) (document w)) w
  | None => w
  end.

(** The registry entry [startNewChat] builds from the next three readings
    of the clock. *)
Definition newChat (w : World) : Chat :=
  {| chat_id := "chat-" +:+ pretty (clock (browser w) (clock_reads w));
     chat_name := "Nai Chat " +:+
       toLocaleString (browser w) (clock (browser w) (S (clock_reads w)));
     chat_date :=
       toISOString (browser w) (clock (browser w) (S (S (clock_reads w)))) |}.

(** The world once [startNewChat] has written the registry. *)
Definition registered (w : World) : World :=
  set_localStorage
    (set_glintChatList (Some (Stringified (newChat w :: registry w)))
       (localStorage w))
    (set_clock_reads (S (S (S (clock_reads w)))) w).

(** The world once [startNewChat] has put the chat id in the address bar. *)
Definition pushed (newId : string) (w : World) : World :=
  if pushState_supported (browser w) then set_search ("?chatId=" +:+ newId) w
  else w.

(** The two bubbles [addMessage] shows for a user message. *)
Definition userBubble (text : string) : Element :=
  {| className := "bubble user"; el_content := TextContent text |}.

Definition loadingBubble (text : string) : Element :=
  {| className := "bubble bot loading-message";
     el_content := InnerHTML
       ("<span class=" +:+ dq +:+ "spinner" +:+ dq +:+ "></span> "
        +:+ toUpperCase (detectApiType text) +:+ " API se jawab aa raha hai...") |}.



(** The world [startNewChat()] leaves behind on a page with a message view
    and a readable registry. *)
Definition chat_started (w : World) : World :=
  let newId := chat_id (newChat w) in
  titled newId
    (view_loaded newId
       (set_currentChatId (Some newId) (pushed newId (registered w)))).


(** A visit with the chat [chat-1] active and nothing stored. *)
Definition active_chat : World := set_currentChatId (Some "chat-1") first_visit.

(** The asset [savePhotoToStorage] builds from the next two readings of the
    clock, and the one [reader.onload] builds. *)
Definition photoData (w : World) (chatId imageData fileName : string) : MediaAsset :=
  {| media_id := "photo-" +:+ pretty (clock (browser w) (clock_reads w));
     media_chatId := chatId; media_data := imageData;
     media_fileName := fileName; media_type := photo;
     media_timestamp :=
       toISOString (browser w) (clock (browser w) (S (clock_reads w)));
     media_duration := None |}.

Definition voiceData (w : World) (chatId result fileName : string) : MediaAsset :=
  {| media_id := "voice-" +:+ pretty (clock (browser w) (clock_reads w));
     media_chatId := chatId; media_data := result;
     media_fileName := fileName; media_type := voice;
     media_timestamp :=
       toISOString (browser w) (clock (browser w) (S (clock_reads w)));
     media_duration := Some 0%Z |}.


(** A chat with one photo stored, while another chat is active. *)
Definition with_media : World :=
  set_localStorage
    (set_glintMediaStorage
       (Some (Stringified
          {[ "chat-0" := [photoData first_visit "chat-0" "data:image/png;base64,AAAA" "old.png"] ]}))
       empty_storage)
    active_chat.

(** ** Credentials, as the settings page reports them *)

(** [localStorage.getItem(`glint_${type}_api`)]; the script writes these
    keys for the four categories only. *)
Definition getItem_api (ls : LocalStorage) (type : string) : option string :=
  if String.eqb type "text" then glint_text_api ls
  else if String.eqb type "image" then glint_image_api ls
  else if String.eqb type "voice" then glint_voice_api ls
  else if String.eqb type "coding" then glint_coding_api ls
  else None.

(** [key ? 'Configured' : 'Not Configured']. *)
Definition configured (ls : LocalStorage) (type : string) : bool :=
  match truthy (getItem_api ls type) with
  | Some _ => true
  | None => false
  end.

(** The children of the view once [ref] is removed. *)
Definition without (ref : nat) (children : list Node) : list Node :=
  List.filter (fun n => negb (Nat.eqb (node_ref n) ref)) children.

(* ================================================================== *)
(** * Media in the view: [displayMediaInChat] and the capture handlers *)
(* ================================================================== *)

(** The markup of a photo and of a voice message. [toLocaleTimeString]
    stands for [new Date(timestamp).toLocaleTimeString()], which depends on
    the browser's locale. *)
Definition photoMarkup (toLocaleTimeString : string -> string)
    (mediaItem : MediaAsset) : string :=
  nl +:+ "                <div class=" +:+ dq +:+ "media-header" +:+ dq +:+ ">"
  +:+ nl +:+ "                    <strong>📸 Photo: " +:+ media_fileName mediaItem +:+ "</strong>"
  +:+ nl +:+ "                </div>"
  +:+ nl +:+ "                <img src=" +:+ dq +:+ media_data mediaItem +:+ dq
  +:+ " alt=" +:+ dq +:+ media_fileName mediaItem +:+ dq
  +:+ " class=" +:+ dq +:+ "media-preview" +:+ dq +:+ " />"
  +:+ nl +:+ "                <div class=" +:+ dq +:+ "media-time" +:+ dq +:+ ">"
  +:+ toLocaleTimeString (media_timestamp mediaItem) +:+ "</div>"
  +:+ nl +:+ "            ".

Definition voiceMarkup (toLocaleTimeString : string -> string)
    (mediaItem : MediaAsset) : string :=
  nl +:+ "                <div class=" +:+ dq +:+ "media-header" +:+ dq +:+ ">"
  +:+ nl +:+ "                    <strong>🎤 Voice: " +:+ media_fileName mediaItem +:+ "</strong>"
  +:+ nl +:+ "                </div>"
  +:+ nl +:+ "                <audio controls class=" +:+ dq +:+ "voice-player" +:+ dq +:+ ">"
  +:+ nl +:+ "                    <source src=" +:+ dq +:+ media_data mediaItem +:+ dq
  +:+ " type=" +:+ dq +:+ "audio/wav" +:+ dq +:+ ">"
  +:+ nl +:+ "                    Your browser does not support audio element."
  +:+ nl +:+ "                </audio>"
  +:+ nl +:+ "                <div class=" +:+ dq +:+ "media-time" +:+ dq +:+ ">"
  +:+ toLocaleTimeString (media_timestamp mediaItem) +:+ "</div>"
  +:+ nl +:+ "            ".

(** The bubble [displayMediaInChat] builds; a type that is neither 'photo'
    nor 'voice' leaves the bubble empty. *)
Definition mediaBubble (toLocaleTimeString : string -> string)
    (mediaType : string) (mediaItem : MediaAsset) : Element :=
  {| className := "bubble user media-message";
     el_content := InnerHTML
       (if String.eqb mediaType "photo"
        then photoMarkup toLocaleTimeString mediaItem
        else if String.eqb mediaType "voice"
        then voiceMarkup toLocaleTimeString mediaItem
        else "") |}.

(** [chatMedia.find(item => item.id === mediaId)]. *)
Definition findMedia (mediaId : string) (chatMedia : list MediaAsset)
    : option MediaAsset :=
  List.find (fun item => String.eqb (media_id item) mediaId) chatMedia.

(** It reads [mediaStorage[currentChatId]] without testing the id: a null
    id is the property key ['null']. *)
Definition displayMediaInChat (toLocaleTimeString : string -> string)
    (mediaId mediaType : string) : M unit :=
  try_catch
    (let! mediaStorage := read_mediaStorage in
     let! current := gets currentChatId in
     let chatMedia := default [] (mediaStorage !! default "null" current) in
     match findMedia mediaId chatMedia with
     | None => ret tt
     | Some mediaItem =>
         let! messages := gets (fun w => messagesEl (document w)) in
         match messages with
         | None => ret tt
         | Some _ =>
             let! mediaDiv := createElement in
             let! _ := prepend mediaDiv
               (mediaBubble toLocaleTimeString mediaType mediaItem) in
             saveCurrentChat
         end
     end)
    (fun error => ret tt).

(** [reader.onload] of the photo picker, with [result] the data URL read
    from the file. *)
Definition photoPicked (toLocaleTimeString : string -> string)
    (result fileName : string) : M unit :=
  let! photoId := savePhotoToStorage result fileName in
  match truthy photoId with
  | Some id =>
      let! _ := addMessage ("Photo uploaded: " +:+ fileName) "user" in
      displayMediaInChat toLocaleTimeString id "photo"
  | None => ret tt
  end.

(** The click on the camera's capture button, with [imageData] the data
    URL of the canvas. *)
Definition photoCaptured (toLocaleTimeString : string -> string)
    (imageData : string) : M unit :=
  let! now := Date_now in
  let fileName := "camera-photo-" +:+ pretty now +:+ ".png" in
  let! photoId := savePhotoToStorage imageData fileName in
  match truthy photoId with
  | Some id =>
      let! _ := addMessage "Photo captured from camera!" "user" in
      displayMediaInChat toLocaleTimeString id "photo"
  | None => ret tt
  end.

(** The [change] handler of the file picker, for a picked file. *)
Definition filePicked (fileName : string) : M unit :=
  addMessage ("File uploaded: " +:+ fileName) "user".

(** The click on the recorder's save button: [recorded] is the blob of the
    recorded chunks, [None] when there are none. The promise of
    [saveVoiceToStorage] is followed to its end: a rejection is caught and
    reported with a bot message; an error thrown by [reader.onload] leaves
    the promise pending, so nothing follows it. *)
Definition recordingSaved (toLocaleTimeString : string -> string)
    (recorded : option Blob) : M unit :=
  match recorded with
  | None => ret tt
  | Some audioBlob =>
      let! now := Date_now in
      let fileName := "voice-message-" +:+ pretty now +:+ ".wav" in
      let! promise := saveVoiceToStorage audioBlob fileName in
      match promise with
      | Rejected reason => addMessage "Error saving voice message." "bot"
      | Reading blob name =>
          match dataURL blob with
          | None => addMessage "Error saving voice message." "bot"
          | Some result =>
              let! voiceId := reader_onload result name in
              let! _ := addMessage ("Voice message: " +:+ fileName) "user" in
              displayMediaInChat toLocaleTimeString voiceId "voice"
          end
      end
  end.

(* ================================================================== *)
(** * The recording timer: [updateRecordingTimer] *)
(* ================================================================== *)

Fixpoint zeros (n : nat) : string :=
  match n with
  | O => EmptyString
  | S n' => String "0" (zeros n')
  end.

(** [s.padStart(targetLength, '0')]. *)
Definition padStart (targetLength : nat) (s : string) : string :=
  zeros (targetLength - String.length s) +:+ s.

(** [Math.floor((Date.now() - recordingStartTime) / 1000)]. *)
Definition elapsedSeconds (now recordingStartTime : Z) : Z :=
  ((now - recordingStartTime) / 1000)%Z.

(** [Math.floor(seconds / 60)] and [seconds % 60]. *)
Definition timerMinutes (seconds : Z) : Z := (seconds / 60)%Z.
Definition timerSeconds (seconds : Z) : Z := Z.rem seconds 60.

(** The text [updateRecordingTimer] writes into the timer. *)
Definition recordingTimerText (now recordingStartTime : Z) : string :=
  let seconds := elapsedSeconds now recordingStartTime in
  let minutes := timerMinutes seconds in
  let remainingSeconds := timerSeconds seconds in
  padStart 2 (pretty minutes) +:+ ":" +:+ padStart 2 (pretty remainingSeconds).

(* ================================================================== *)
(** * The composer: [sendMessage] of [initializeChat] *)
(* ================================================================== *)


(* ================================================================== *)
(** * The settings page: [initializeApiSettings], [updateApiStatus] *)
(* ================================================================== *)

Definition set_glint_text_api (v : option string) (ls : LocalStorage) : LocalStorage :=
  {| glint_text_api := v; glint_image_api := glint_image_api ls;
     glint_voice_api := glint_voice_api ls; glint_coding_api := glint_coding_api ls;
     selectedLanguage := selectedLanguage ls; glintChatList := glintChatList ls;
     glintMediaStorage := glintMediaStorage ls; messages_html := messages_html ls |}.

Definition set_glint_image_api (v : option string) (ls : LocalStorage) : LocalStorage :=
  {| glint_text_api := glint_text_api ls; glint_image_api := v;
     glint_voice_api := glint_voice_api ls; glint_coding_api := glint_coding_api ls;
     selectedLanguage := selectedLanguage ls; glintChatList := glintChatList ls;
     glintMediaStorage := glintMediaStorage ls; messages_html := messages_html ls |}.

Definition set_glint_voice_api (v : option string) (ls : LocalStorage) : LocalStorage :=
  {| glint_text_api := glint_text_api ls; glint_image_api := glint_image_api ls;
     glint_voice_api := v; glint_coding_api := glint_coding_api ls;
     selectedLanguage := selectedLanguage ls; glintChatList := glintChatList ls;
     glintMediaStorage := glintMediaStorage ls; messages_html := messages_html ls |}.

Definition set_glint_coding_api (v : option string) (ls : LocalStorage) : LocalStorage :=
  {| glint_text_api := glint_text_api ls; glint_image_api := glint_image_api ls;
     glint_voice_api := glint_voice_api ls; glint_coding_api := v;
     selectedLanguage := selectedLanguage ls; glintChatList := glintChatList ls;
     glintMediaStorage := glintMediaStorage ls; messages_html := messages_html ls |}.

(** [localStorage.setItem(`glint_${type}_api`, v)], or [removeItem] for
    [None], for the four categories. *)
Definition setItem_api (type : string) (v : option string) (ls : LocalStorage)
    : LocalStorage :=
  if String.eqb type "text" then set_glint_text_api v ls
  else if String.eqb type "image" then set_glint_image_api v ls
  else if String.eqb type "voice" then set_glint_voice_api v ls
  else if String.eqb type "coding" then set_glint_coding_api v ls
  else ls.

(** The name of a category in the alerts of the settings page. *)
Definition apiLabel (type : string) : string :=
  if String.eqb type "text" then "Text"
  else if String.eqb type "image" then "Image"
  else if String.eqb type "voice" then "Voice"
  else "Coding".

(** What a save button leaves on the page: the alert shown and the value
    of the input. *)
Record Saved := {
  alerted : string;
  input_value : string
}.

(** The click on the save button of a category (the four handlers are
    written alike), with [inputValue] in its input. *)
Definition saveApiClick (type inputValue : string) : M Saved :=
  let apiKey := trim inputValue in
  if negb (String.eqb apiKey "") then
    let! _ := modify (fun w =>
      set_localStorage (setItem_api type (Some apiKey) (localStorage w)) w) in
    ret {| alerted := "✅ " +:+ apiLabel type +:+ " API key saved successfully!";
           input_value := inputValue |}
  else
    let! _ := modify (fun w =>
      set_localStorage (setItem_api type None (localStorage w)) w) in
    ret {| alerted := "⚠️ " +:+ apiLabel type +:+ " API key cleared.";
           input_value := "" |}.

(** The text [updateApiStatus] writes into the indicator of a category. *)
Definition apiStatus (ls : LocalStorage) (type : string) : string :=
  if configured ls type then "🟢 Configured" else "🔴 Not Configured".

(** The alert of the "test all" button. *)
Definition testAllApis (ls : LocalStorage) : string :=
  "🧪 API Test Results:" +:+ nl +:+ nl
  +:+ "🔤 Text API: " +:+ apiStatus ls "text" +:+ nl
  +:+ "🖼️ Image API: " +:+ apiStatus ls "image" +:+ nl
  +:+ "🎤 Voice API: " +:+ apiStatus ls "voice" +:+ nl
  +:+ "💻 Coding API: " +:+ apiStatus ls "coding".

(* ================================================================== *)
(** * The theme script: [applyTheme], [initializeTheme] *)
(* ================================================================== *)

Module Theme.

(** What the theme script touches: the [theme] key of [localStorage] and
    the class of the document element. *)
Record State := {
  theme : option string;
  documentClass : string
}.

(** [['dark', 'light'].includes(themeName)]. *)
Definition valid (themeName : string) : bool :=
  String.eqb themeName "dark" || String.eqb themeName "light".

(** [applyTheme(themeName)], for a name that may be null or undefined. *)
Definition applyTheme (themeName : option string) (st : State) : State :=
  let themeName :=
    match themeName with
    | Some name =>
        if String.eqb name "" || String.eqb name "null" || negb (valid name)
        then "light" else name
    | None => "light"
    end in
  {| theme := Some themeName; documentClass := themeName |}.

Definition initializeTheme (st : State) : State :=
  let savedTheme := or_else (theme st) "light" in
  let savedTheme := if negb (valid savedTheme) then "light" else savedTheme in
  applyTheme (Some savedTheme) st.

End Theme.

(* ================================================================== *)
(** * More sample worlds *)
(* ================================================================== *)

(** Providers that answer every request with a completion and an image. *)
Definition answering_browser : Browser :=
  {| clock := fun n => (1700000000000 + Z.of_nat n)%Z;
     toLocaleString := pretty;
     toISOString := pretty;
     respond := fun _ _ =>
       Return {| ok := true; status := 200; statusText := "OK";
                 response_text := "";
                 response_json := Some
                   {| json_message := None;
                      json_content := Some "  Salaam, Guru!  ";
                      json_output_url := Some "https://api.deepai.org/job-view-file/1.jpg";
                      json_text := None |} |};
     pushState_supported := true;
     engine_message := fun _ => "" |}.

(** Providers that reject every request. *)
Definition rejecting_browser : Browser :=
  {| clock := fun n => (1700000000000 + Z.of_nat n)%Z;
     toLocaleString := pretty;
     toISOString := pretty;
     respond := fun _ _ =>
       Return {| ok := false; status := 401; statusText := "Unauthorized";
                 response_text := "no such key";
                 response_json := Some
                   {| json_message := Some "Invalid key"; json_content := None;
                      json_output_url := None; json_text := None |} |};
     pushState_supported := true;
     engine_message := fun _ => "" |}.

Definition all_keys : LocalStorage :=
  {| glint_text_api := Some "sk-text"; glint_image_api := Some "key-image";
     glint_voice_api := Some "pk-voice"; glint_coding_api := Some "sk-code";
     selectedLanguage := Some "english"; glintChatList := None;
     glintMediaStorage := None; messages_html := ∅ |}.

(** The chat [chat-1] active on the chat page, every key saved. *)
Definition at_work (b : Browser) : World :=
  {| browser := b; clock_reads := 0; currentChatId := Some "chat-1";
     localStorage := all_keys; document := chat_page; timers := [];
     fetched := []; search := "?chatId=chat-1"; navigation := None |}.

(** The request a category sends. *)
Definition endpoint (type : string) : string :=
  if String.eqb type "image" then deepAiUrl else deepSeekUrl.

Definition credential_header (type apiKey : string) : string * string :=
  if String.eqb type "image" then ("api-key", apiKey)
  else ("Authorization", "Bearer " +:+ apiKey).


Definition apiErrorText (message : string) : string :=
  "❌ API Error: " +:+ message +:+ ". Please check your API configuration.".
(* ================================================================== *)
(** * Properties *)
(* ================================================================== *)

(** ** Strings *)

Lemma startsWith_app (k post : string) : startsWith (k +:+ post) k = true.
Proof.
  induction k as [|a k IH]; simpl.
  - now destruct post.
  - rewrite Ascii.eqb_refl. exact IH.
Qed.

Lemma startsWith_inv (s k : string) :
  startsWith s k = true -> exists post, s = k +:+ post.
Proof.
  revert s. induction k as [|a k IH]; intros s H.
  - exists s. reflexivity.
  - destruct s as [|b s]; simpl in H; [discriminate|].
    destruct (Ascii.eqb a b) eqn:E; [|discriminate].
    apply Ascii.eqb_eq in E. subst b.
    destruct (IH _ H) as [post ->]. exists post. reflexivity.
Qed.

Lemma includes_startsWith (s k : string) :
  startsWith s k = true -> includes s k = true.
Proof. intros H. destruct s; cbn [includes]; rewrite H; reflexivity. Qed.

Lemma includes_app (pre k post : string) :
  includes (pre +:+ k +:+ post) k = true.
Proof.
  induction pre as [|a pre IH].
  - change ("" +:+ k +:+ post) with (k +:+ post).
    apply includes_startsWith, startsWith_app.
  - simpl. rewrite IH. apply orb_true_r.
Qed.

Lemma includes_inv (s k : string) :
  includes s k = true -> exists pre post, s = pre +:+ k +:+ post.
Proof.
  induction s as [|a s IH]; cbn [includes]; intros H.
  - rewrite orb_false_r in H. apply startsWith_inv in H as [post ->].
    exists "", post. reflexivity.
  - apply orb_true_iff in H as [H|H].
    + apply startsWith_inv in H as [post ->]. exists "", post. reflexivity.
    + destruct (IH H) as (pre & post & ->).
      exists (String a pre), post. reflexivity.
Qed.

Lemma map_string_app (f : ascii -> ascii) (a b : string) :
  map_string f (a +:+ b) = map_string f a +:+ map_string f b.
Proof. induction a as [|c a IH]; simpl; [reflexivity | now rewrite IH]. Qed.

Lemma map_string_app_inv (f : ascii -> ascii) (s a b : string) :
  map_string f s = a +:+ b ->
  exists a' b', s = a' +:+ b' /\ map_string f a' = a /\ map_string f b' = b.
Proof.
  revert s. induction a as [|c a IH]; intros s H.
  - exists "", s. auto.
  - destruct s as [|d s]; simpl in H; [discriminate|].
    injection H as Hc Hs. destruct (IH _ Hs) as (a' & b' & -> & Ha & Hb).
    exists (String d a'), b'. simpl. rewrite Hc, Ha. auto.
Qed.

Lemma code_inj (a b : ascii) : code a = code b -> a = b.
Proof.
  unfold code. intros H.
  rewrite <- (ascii_nat_embedding a), <- (ascii_nat_embedding b). now rewrite H.
Qed.

Lemma code_of_nat (n : nat) : n < 256 -> code (ascii_of_nat n) = n.
Proof. apply nat_ascii_embedding. Qed.

Lemma code_bound (a : ascii) : code a < 256.
Proof. apply nat_ascii_bounded. Qed.

Lemma lower_char_code (a : ascii) :
  code (lower_char a) = if is_upper a then code a + 32 else code a.
Proof.
  unfold lower_char. destruct (is_upper a) eqn:E; [|reflexivity].
  unfold is_upper in E. apply andb_true_iff in E as [_ E]. apply Nat.leb_le in E.
  apply code_of_nat. lia.
Qed.

Lemma lower_char_same (a b : ascii) :
  lower_char a = lower_char b <-> same_letter a b.
Proof.
  unfold same_letter. split.
  - intros H. apply (f_equal code) in H. rewrite !lower_char_code in H.
    destruct (is_upper a) eqn:Ea, (is_upper b) eqn:Eb.
    + left. apply code_inj. lia.
    + right. left. split; [reflexivity | lia].
    + right. right. split; [reflexivity | lia].
    + left. apply code_inj. exact H.
  - intros H. apply code_inj. rewrite !lower_char_code.
    destruct H as [->|[[Ea H]|[Eb H]]].
    + reflexivity.
    + rewrite Ea. destruct (is_upper b) eqn:Eb; [|lia].
      unfold is_upper in Ea, Eb.
      apply andb_true_iff in Ea as [Ea1 Ea2]. apply andb_true_iff in Eb as [Eb1 Eb2].
      apply Nat.leb_le in Ea1, Ea2, Eb1, Eb2. lia.
    + rewrite Eb. destruct (is_upper a) eqn:Ea; [|lia].
      unfold is_upper in Ea, Eb.
      apply andb_true_iff in Ea as [Ea1 Ea2]. apply andb_true_iff in Eb as [Eb1 Eb2].
      apply Nat.leb_le in Ea1, Ea2, Eb1, Eb2. lia.
Qed.

Lemma toLowerCase_eq_iff (s t : string) :
  toLowerCase s = toLowerCase t <-> equal_ignoring_case s t.
Proof.
  revert t. induction s as [|a s IH]; intros [|b t]; simpl; try easy.
  split.
  - intros [= H1 H2].
    split.
    + exact (proj1 (lower_char_same a b) H1).
    + exact (proj1 (IH t) H2).
  - intros [H1 H2]. unfold toLowerCase. cbn [map_string].
    f_equal; [exact (proj2 (lower_char_same a b) H1) | exact (proj2 (IH t) H2)].
Qed.

(** [includes] after [toLowerCase] is the occurrence up to case, for a
    keyword that is already in lower case. *)
Lemma includes_lower_iff (message keyword : string) :
  toLowerCase keyword = keyword ->
  includes (toLowerCase message) keyword = true <->
  occurs_ignoring_case keyword message.
Proof.
  intros Hk. unfold occurs_ignoring_case. split.
  - intros H. apply includes_inv in H as (pre & post & H).
    apply map_string_app_inv in H as (pre' & rest & -> & Hpre & H).
    apply map_string_app_inv in H as (seg & post' & -> & Hseg & Hpost).
    exists pre', seg, post'. split; [reflexivity|].
    apply toLowerCase_eq_iff. rewrite Hk. exact Hseg.
  - intros (pre & seg & post & -> & Hseg).
    apply toLowerCase_eq_iff in Hseg. rewrite Hk in Hseg.
    unfold toLowerCase in *. rewrite !map_string_app, Hseg.
    apply includes_app.
Qed.

Lemma some_lower_iff (keywords : list string) (message : string) :
  Forall (fun k => toLowerCase k = k) keywords ->
  some (fun keyword => includes (toLowerCase message) keyword) keywords = true <->
  mentions keywords message.
Proof.
  intros Hall. unfold some, mentions. rewrite existsb_exists.
  rewrite List.Forall_forall in Hall.
  split; intros (k & Hin & H); exists k; split; auto.
  - apply (includes_lower_iff message k (Hall k Hin)); exact H.
  - apply (includes_lower_iff message k (Hall k Hin)); exact H.
Qed.

Lemma keywords_lower :
  Forall (fun k => toLowerCase k = k) imageKeywords /\
  Forall (fun k => toLowerCase k = k) voiceKeywords /\
  Forall (fun k => toLowerCase k = k) codingKeywords.
Proof. repeat split; repeat constructor. Qed.

(** ** Classifier *)

Lemma not_mentions (keywords : list string) (message : string) :
  Forall (fun k => toLowerCase k = k) keywords ->
  ~ mentions keywords message ->
  some (fun keyword => includes (toLowerCase message) keyword) keywords = false.
Proof.
  intros Hall Hno. apply not_true_is_false. intros H.
  apply Hno, (some_lower_iff keywords message Hall), H.
Qed.

(** The chain of tests of the classifier, for any three keyword tables in
    lower case. *)
Lemma keyword_chain (image voice coding : list string) (message : string) :
  Forall (fun k => toLowerCase k = k) image ->
  Forall (fun k => toLowerCase k = k) voice ->
  Forall (fun k => toLowerCase k = k) coding ->
  let result :=
    if some (fun k => includes (toLowerCase message) k) image then "image"
    else if some (fun k => includes (toLowerCase message) k) voice then "voice"
    else if some (fun k => includes (toLowerCase message) k) coding then "coding"
    else "text" in
  (mentions image message -> result = "image") /\
  (~ mentions image message -> mentions voice message -> result = "voice") /\
  (~ mentions image message -> ~ mentions voice message ->
   mentions coding message -> result = "coding") /\
  (~ mentions image message -> ~ mentions voice message ->
   ~ mentions coding message -> result = "text").
Proof.
  intros Hi Hv Hc result. unfold result. repeat split.
  - intros H. apply (some_lower_iff _ _ Hi) in H. now rewrite H.
  - intros Hni H. rewrite (not_mentions _ _ Hi Hni).
    apply (some_lower_iff _ _ Hv) in H. now rewrite H.
  - intros Hni Hnv H.
    rewrite (not_mentions _ _ Hi Hni), (not_mentions _ _ Hv Hnv).
    apply (some_lower_iff _ _ Hc) in H. now rewrite H.
  - intros Hni Hnv Hnc.
    now rewrite (not_mentions _ _ Hi Hni), (not_mentions _ _ Hv Hnv),
      (not_mentions _ _ Hc Hnc).
Qed.


(** The classifier of the example revision obeys the same order. *)
Lemma ScriptJs_detectApiType_priority (message : string) :
  (mentions imageKeywords message -> ScriptJs.detectApiType message = "image") /\
  (~ mentions imageKeywords message -> mentions ScriptJs.voiceKeywords message ->
   ScriptJs.detectApiType message = "voice") /\
  (~ mentions imageKeywords message -> ~ mentions ScriptJs.voiceKeywords message ->
   mentions codingKeywords message -> ScriptJs.detectApiType message = "coding") /\
  (~ mentions imageKeywords message -> ~ mentions ScriptJs.voiceKeywords message ->
   ~ mentions codingKeywords message -> ScriptJs.detectApiType message = "text").
Proof.
  destruct keywords_lower as (Hi & _ & Hc).
  apply (keyword_chain imageKeywords ScriptJs.voiceKeywords codingKeywords message
           Hi); [repeat constructor | exact Hc].
Qed.

(** The scenarios of the specification. *)
Example scenario_A : detectApiType "please draw a picture of a cat" = "image".
Proof. reflexivity. Qed.

Example scenario_B : detectApiType "debug this function" = "coding".
Proof. reflexivity. Qed.

Example scenario_C : detectApiType "hello there" = "text".
Proof. reflexivity. Qed.

Example image_before_coding : detectApiType "Write CODE that makes an IMAGE" = "image".
Proof. reflexivity. Qed.

Example image_in_capitals : mentions imageKeywords "Write CODE that makes an IMAGE".
Proof.
  exists "image". split; [simpl; auto|].
  exists "Write CODE that makes an ", "IMAGE", "". split; [reflexivity|].
  simpl. repeat split; right; left; split; reflexivity.
Qed.

(** ** Key store and gateway *)

Lemma or_else_empty (v : option string) :
  or_else v "" = "" <-> truthy v = None.
Proof.
  unfold or_else, truthy. destruct v as [s|]; [|tauto].
  destruct (String.eqb s "") eqn:E; [tauto|].
  apply String.eqb_neq in E. split; intros H; [contradiction | discriminate].
Qed.

(** For the four categories the key [getApiKey] returns is empty exactly
    when the settings page reports the category as not configured. *)
Lemma getApiKey_configured (ls : LocalStorage) (type : string) :
  In type categories ->
  getApiKey ls type = "" <-> configured ls type = false.
Proof.
  intros Hin. unfold configured.
  assert (E : getApiKey ls type = or_else (getItem_api ls type) "").
  { simpl in Hin. destruct Hin as [<-|[<-|[<-|[<-|[]]]]]; reflexivity. }
  rewrite E, or_else_empty.
  destruct (truthy (getItem_api ls type)); split; intros H;
    reflexivity || discriminate H.
Qed.

Lemma makeApiCall_no_key (w : World) (type content : string) (options : Options) :
  getApiKey (localStorage w) type = "" ->
  makeApiCall type content options w = (Throw (Error (notConfigured type)), w).
Proof.
  intros H. unfold makeApiCall, bind, gets. rewrite H. reflexivity.
Qed.

Lemma makeApiCall_key (w : World) (type content : string) (options : Options) :
  getApiKey (localStorage w) type <> "" ->
  makeApiCall type content options w =
    try_catch
      (if String.eqb type "text"
       then callTextApi content (getApiKey (localStorage w) type) options
       else if String.eqb type "image"
       then callImageApi content (getApiKey (localStorage w) type) options
       else if String.eqb type "voice"
       then callVoiceApi content (getApiKey (localStorage w) type) options
       else if String.eqb type "coding"
       then callCodingApi content (getApiKey (localStorage w) type) options
       else throw (Error "Unknown API type"))
      (fun error => throw error) w.
Proof.
  intros H. unfold makeApiCall, bind, gets.
  apply String.eqb_neq in H. rewrite H. reflexivity.
Qed.

Lemma configured_key (ls : LocalStorage) (type : string) :
  In type categories -> configured ls type = true -> getApiKey ls type <> "".
Proof.
  intros Hin Hc Hk. apply (getApiKey_configured ls type Hin) in Hk. congruence.
Qed.

(** C1. For each of the four categories, [makeApiCall] with no credential
    configured for the category throws the "not configured" error, a
    configuration error, and leaves the world as it was: the request log
    has no new entry, so no network call was made. *)
Theorem makeApiCall_unconfigured
    (w : World) (type content : string) (options : Options) :
  In type categories ->
  configured (localStorage w) type = false ->
  makeApiCall type content options w = (Throw (Error (notConfigured type)), w) /\
  ConfigurationError (Error (notConfigured type)) /\
  fetched (snd (makeApiCall type content options w)) = fetched w.
Proof.
  intros Hin Hc. apply (getApiKey_configured _ _ Hin) in Hc.
  rewrite (makeApiCall_no_key w type content options Hc).
  repeat split. exists type. reflexivity.
Qed.

Lemma makeApiCall_unconfigured_witness :
  makeApiCall "image" "draw a cat" no_options first_visit
    = (Throw (Error "IMAGE API key not configured. Please check settings."),
       first_visit) /\
  ConfigurationError (Error (notConfigured "image")) /\
  fetched (snd (makeApiCall "image" "draw a cat" no_options first_visit)) = [].
Proof.
  apply (makeApiCall_unconfigured first_visit "image" "draw a cat" no_options).
  - simpl. auto.
  - reflexivity.
Defined.

Lemma voice_messages :
  voiceErrorRomanUrdu <> "" /\ voiceErrorEnglish <> "" /\
  includes voiceErrorRomanUrdu "backend proxy" = true /\
  includes voiceErrorEnglish "backend proxy" = true.
Proof. repeat split; try discriminate; vm_compute; reflexivity. Qed.



(** The voice call of the example revision does reach the network: one
    request, whatever the answer. *)
Lemma ScriptJs_callVoiceApi_fetches
    (w : World) (audioData apiKey : string) (options : Options) :
  length (fetched (snd (ScriptJs.callVoiceApi audioData apiKey options w)))
    = S (length (fetched w)).
Proof.
  unfold ScriptJs.callVoiceApi, bind, fetch.
  destruct (respond (browser w) (length (fetched w)) _) as [response|e]; cbn.
  - destruct (negb (ok response)); cbn.
    + rewrite length_app. cbn. lia.
    + destruct (response_json response); cbn; rewrite length_app; cbn; lia.
  - rewrite length_app. cbn. lia.
Qed.

(** C6, as the specification states it, fails at a first visit: with no
    voice credential, what [makeApiCall] throws is the "not configured"
    error, not the transport error. *)
Lemma no_voice_key_is_configuration_error :
  configured (localStorage first_visit) "voice" = false /\
  fst (makeApiCall "voice" "read this aloud" no_options first_visit)
    = Throw (Error "VOICE API key not configured. Please check settings.") /\
  ~ TransportUnsupportedError
      (Error "VOICE API key not configured. Please check settings.").
Proof.
  repeat split. intros [H|H]; discriminate H.
Qed.

(** C6, amended. With no voice credential configured, [makeApiCall] for the
    voice category throws the configuration error, with the non-empty
    message "VOICE API key not configured. Please check settings."; it is
    not the transport error, and no network call is made. *)
Theorem voice_unconfigured
    (w : World) (content : string) (options : Options) :
  configured (localStorage w) "voice" = false ->
  makeApiCall "voice" content options w
    = (Throw (Error "VOICE API key not configured. Please check settings."), w) /\
  ConfigurationError (Error "VOICE API key not configured. Please check settings.") /\
  ~ TransportUnsupportedError
      (Error "VOICE API key not configured. Please check settings.") /\
  "VOICE API key not configured. Please check settings." <> "" /\
  fetched (snd (makeApiCall "voice" content options w)) = fetched w.
Proof.
  intros Hc.
  assert (H : getApiKey (localStorage w) "voice" = "")
    by (apply getApiKey_configured; [simpl; auto | exact Hc]).
  rewrite (makeApiCall_no_key w "voice" content options H).
  repeat split.
  - exists "voice". reflexivity.
  - intros [E|E]; discriminate E.
  - discriminate.
Qed.

Lemma voice_unconfigured_witness :
  makeApiCall "voice" "read this aloud" no_options first_visit
    = (Throw (Error "VOICE API key not configured. Please check settings."),
       first_visit) /\
  ConfigurationError (Error "VOICE API key not configured. Please check settings.") /\
  ~ TransportUnsupportedError
      (Error "VOICE API key not configured. Please check settings.") /\
  "VOICE API key not configured. Please check settings." <> "" /\
  fetched (snd (makeApiCall "voice" "read this aloud" no_options first_visit)) = [].
Proof.
  apply (voice_unconfigured first_visit "read this aloud" no_options).
  reflexivity.
Defined.



(** ** Chat registry and history *)

Lemma getChatMedia_pure (w : World) : exists l, getChatMedia w = (Return l, w).
Proof.
  unfold getChatMedia, try_catch, bind, gets, read_mediaStorage, bind, gets, JSON_parse.
  destruct (truthy (currentChatId w)); [|eexists; reflexivity].
  destruct (glintMediaStorage (localStorage w)) as [[| |m]|]; eexists; reflexivity.
Qed.


Lemma read_chatList_ok (w : World) :
  glintChatList (localStorage w) <> Some Malformed ->
  read_chatList w = (Return (registry w), w).
Proof.
  intros H. unfold read_chatList, registry, bind, gets, JSON_parse.
  destruct (glintChatList (localStorage w)) as [[| |l]|]; try reflexivity.
  contradiction.
Qed.

Lemma read_chatList_corrupt (w : World) :
  glintChatList (localStorage w) = Some Malformed ->
  read_chatList w = (Throw SyntaxError, w).
Proof.
  intros H. unfold read_chatList, bind, gets, JSON_parse. rewrite H. reflexivity.
Qed.

Lemma loadChat_fill (w : World) (chatId : string) (children : list Node) :
  messagesEl (document w) = Some children ->
  loadChat chatId w =
    bind read_chatList (fun chatList =>
      let currentChatData :=
        List.find (fun c => String.eqb (chat_id c) chatId) chatList in
      modify (fun w =>
        match chatTitleEl (document w) with
        | Some _ =>
            set_document
              (set_chatTitleEl
                 (Some (match currentChatData with
                        | Some c => chat_name c
                        | None => "Glint Chat"
                        end)) (document w)) w
        | None => w
        end)) (view_loaded chatId w).
Proof.
  intros Hview. unfold loadChat. unfold bind at 1, gets at 1. rewrite Hview.
  unfold bind at 1, modify at 1. unfold bind at 1, gets at 1. cbn [localStorage set_currentChatId].
  unfold bind at 1.
  unfold view_loaded, loaded_view.
  destruct (messages_html (localStorage w) !! chatId) as [[|e h]|] eqn:Hh.
  - reflexivity.
  - unfold bind at 1, set_innerHTML at 1, modify at 1.
    unfold bind at 1.
    match goal with |- context [getChatMedia ?x] => destruct (getChatMedia_pure x) as [l ->] end.
    reflexivity.
  - reflexivity.
Qed.

Lemma loadChat_eq (w : World) (chatId : string) (children : list Node) :
  messagesEl (document w) = Some children ->
  glintChatList (localStorage w) <> Some Malformed ->
  loadChat chatId w = (Return tt, titled chatId (view_loaded chatId w)).
Proof.
  intros Hview Hreg. rewrite (loadChat_fill w chatId children Hview).
  unfold bind. rewrite read_chatList_ok by exact Hreg. reflexivity.
Qed.

Lemma loadChat_corrupt (w : World) (chatId : string) (children : list Node) :
  messagesEl (document w) = Some children ->
  glintChatList (localStorage w) = Some Malformed ->
  loadChat chatId w = (Throw SyntaxError, view_loaded chatId w).
Proof.
  intros Hview Hreg. rewrite (loadChat_fill w chatId children Hview).
  unfold bind. rewrite read_chatList_corrupt by exact Hreg. reflexivity.
Qed.

Lemma loadChat_no_view (w : World) (chatId : string) :
  messagesEl (document w) = None -> loadChat chatId w = (Return tt, w).
Proof. intros H. unfold loadChat, bind, gets. rewrite H. reflexivity. Qed.

Lemma startNewChat_corrupt (w : World) (shouldReload : bool) :
  glintChatList (localStorage w) = Some Malformed ->
  startNewChat shouldReload w
    = (Throw SyntaxError, set_clock_reads (S (S (clock_reads w))) w).
Proof.
  intros H. unfold startNewChat. unfold bind at 1, Date_now at 1.
  unfold bind at 1, Date_now at 1. unfold bind at 1, gets at 1.
  unfold bind at 1. rewrite read_chatList_corrupt by exact H. reflexivity.
Qed.

Lemma startNewChat_eq (w : World) :
  glintChatList (localStorage w) <> Some Malformed ->
  startNewChat false w =
    loadChat (chat_id (newChat w))
      (set_currentChatId (Some (chat_id (newChat w)))
         (pushed (chat_id (newChat w)) (registered w))).
Proof.
  intros H. unfold startNewChat. unfold bind at 1, Date_now at 1.
  unfold bind at 1, Date_now at 1. unfold bind at 1, gets at 1.
  unfold bind at 1. rewrite read_chatList_ok by exact H.
  reflexivity.
Qed.

Lemma startNewChat_reload (w : World) :
  glintChatList (localStorage w) <> Some Malformed ->
  startNewChat true w =
    (Return tt,
     set_navigation (Some ("index.html?chatId=" +:+ chat_id (newChat w)))
       (registered w)).
Proof.
  intros H. unfold startNewChat. unfold bind at 1, Date_now at 1.
  unfold bind at 1, Date_now at 1. unfold bind at 1, gets at 1.
  unfold bind at 1. rewrite read_chatList_ok by exact H.
  reflexivity.
Qed.


Lemma registry_readable_dec (w : World) :
  {glintChatList (localStorage w) = Some Malformed} +
  {glintChatList (localStorage w) <> Some Malformed}.
Proof.
  destruct (glintChatList (localStorage w)) as [[| |l]|];
    (left; reflexivity) || (right; discriminate).
Qed.

Lemma titled_frame (chatId : string) (w : World) :
  localStorage (titled chatId w) = localStorage w /\
  currentChatId (titled chatId w) = currentChatId w /\
  timers (titled chatId w) = timers w /\
  messagesEl (document (titled chatId w)) = messagesEl (document w) /\
  next_ref (document (titled chatId w)) = next_ref (document w) /\
  fetched (titled chatId w) = fetched w /\
  browser (titled chatId w) = browser w.
Proof. unfold titled. destruct (chatTitleEl (document w)); repeat split. Qed.

(** [loadChat] writes nothing to [localStorage], whatever it returns. *)
Lemma loadChat_storage (w : World) (chatId : string) :
  localStorage (snd (loadChat chatId w)) = localStorage w.
Proof.
  destruct (messagesEl (document w)) as [children|] eqn:Hview.
  - destruct (registry_readable_dec w) as [H|H].
    + rewrite (loadChat_corrupt w chatId children Hview H). reflexivity.
    + rewrite (loadChat_eq w chatId children Hview H). simpl.
      rewrite (proj1 (titled_frame chatId (view_loaded chatId w))). reflexivity.
  - rewrite (loadChat_no_view w chatId Hview). reflexivity.
Qed.

Lemma pushed_frame (newId : string) (w : World) :
  localStorage (pushed newId w) = localStorage w /\
  currentChatId (pushed newId w) = currentChatId w /\
  timers (pushed newId w) = timers w /\
  document (pushed newId w) = document w /\
  fetched (pushed newId w) = fetched w /\
  browser (pushed newId w) = browser w.
Proof. unfold pushed. destruct (pushState_supported (browser w)); repeat split. Qed.

(** With a readable registry, [startNewChat] puts the chat it creates at
    the head of the registry and keeps the rest. *)
Lemma startNewChat_registry (w : World) (shouldReload : bool) :
  glintChatList (localStorage w) <> Some Malformed ->
  registry (snd (startNewChat shouldReload w)) = newChat w :: registry w.
Proof.
  intros H. unfold registry at 1. destruct shouldReload.
  - rewrite (startNewChat_reload w H). reflexivity.
  - rewrite (startNewChat_eq w H), loadChat_storage. cbn [localStorage set_currentChatId].
    rewrite (proj1 (pushed_frame _ _)). reflexivity.
Qed.

(** When the clock has moved on since every registered chat was created,
    so that the new id is not in the registry, the ids stay distinct. *)
Lemma startNewChat_fresh (w : World) (shouldReload : bool) :
  glintChatList (localStorage w) <> Some Malformed ->
  ~ In (chat_id (newChat w)) (map chat_id (registry w)) ->
  List.NoDup (map chat_id (registry w)) ->
  List.NoDup (map chat_id (registry (snd (startNewChat shouldReload w)))).
Proof.
  intros H Hfresh Hnodup. rewrite (startNewChat_registry w shouldReload H).
  simpl. constructor; assumption.
Qed.

(** C3. On a first visit with the clock standing at one millisecond, two
    calls of [startNewChat] register the same id twice: the id of the
    second chat is already in the registry it was added to, and the ids of
    the registry are no longer distinct. *)
Theorem startNewChat_same_millisecond :
  let once := snd (startNewChat false first_visit) in
  let twice := snd (startNewChat false once) in
  map chat_id (registry once) = ["chat-1700000000000"] /\
  map chat_id (registry twice) = ["chat-1700000000000"; "chat-1700000000000"] /\
  In (chat_id (newChat once)) (map chat_id (registry once)) /\
  ~ List.NoDup (map chat_id (registry twice)).
Proof.
  assert (E1 : map chat_id (registry (snd (startNewChat false first_visit)))
               = ["chat-1700000000000"]) by (vm_compute; reflexivity).
  assert (E2 : map chat_id
                 (registry (snd (startNewChat false
                                   (snd (startNewChat false first_visit)))))
               = ["chat-1700000000000"; "chat-1700000000000"])
    by (vm_compute; reflexivity).
  cbv zeta. rewrite E1, E2. repeat split.
  - left. vm_compute. reflexivity.
  - intros Hnd. inversion Hnd as [|x l Hnotin _]. apply Hnotin. left. reflexivity.
Qed.

(** C7. With a chat registry that is not JSON, [startNewChat] and
    [loadChat] throw the [SyntaxError] of [JSON.parse] to their caller and
    leave the registry as it was, where [getChatMedia] and
    [savePhotoToStorage] catch the same error of the media index and
    return the empty list and null. *)
Theorem corrupt_registry_throws :
  fst (startNewChat false corrupt_registry) = Throw SyntaxError /\
  fst (startNewChat true corrupt_registry) = Throw SyntaxError /\
  fst (loadChat "chat-1" corrupt_registry) = Throw SyntaxError /\
  glintChatList (localStorage (snd (startNewChat false corrupt_registry)))
    = Some Malformed /\
  fst (getChatMedia corrupt_media) = Return [] /\
  fst (savePhotoToStorage "data:image/png;base64,AAAA" "a.png" corrupt_media)
    = Return None.
Proof. repeat split; vm_compute; reflexivity. Qed.

(** Whatever the world, a corrupt registry makes both functions throw. *)
Lemma corrupt_registry_always_throws
    (w : World) (shouldReload : bool) (chatId : string) (children : list Node) :
  glintChatList (localStorage w) = Some Malformed ->
  messagesEl (document w) = Some children ->
  fst (startNewChat shouldReload w) = Throw SyntaxError /\
  fst (loadChat chatId w) = Throw SyntaxError.
Proof.
  intros H Hview.
  rewrite (startNewChat_corrupt w shouldReload H).
  rewrite (loadChat_corrupt w chatId children Hview H). split; reflexivity.
Qed.

(** A corrupt media index never escapes [getChatMedia]. *)
Lemma getChatMedia_corrupt (w : World) :
  glintMediaStorage (localStorage w) = Some Malformed ->
  getChatMedia w = (Return [], w).
Proof.
  intros H.
  unfold getChatMedia, try_catch, bind, gets, read_mediaStorage, bind, gets, JSON_parse.
  destruct (truthy (currentChatId w)); [|reflexivity].
  rewrite H. reflexivity.
Qed.

(** ** Chat session *)

Lemma startNewChat_started (w : World) (children : list Node) :
  messagesEl (document w) = Some children ->
  glintChatList (localStorage w) <> Some Malformed ->
  startNewChat false w = (Return tt, chat_started w).
Proof.
  intros Hview H. rewrite (startNewChat_eq w H).
  apply (loadChat_eq _ _ children).
  - cbn [document set_currentChatId].
    rewrite (proj1 (proj2 (proj2 (proj2 (pushed_frame _ _))))). exact Hview.
  - cbn [localStorage set_currentChatId].
    rewrite (proj1 (pushed_frame _ _)). discriminate.
Qed.

Lemma chat_started_frame (w : World) :
  currentChatId (chat_started w) = Some (chat_id (newChat w)) /\
  registry (chat_started w) = newChat w :: registry w /\
  timers (chat_started w) = timers w /\
  fetched (chat_started w) = fetched w.
Proof.
  unfold chat_started, registry at 1.
  destruct (titled_frame (chat_id (newChat w))
              (view_loaded (chat_id (newChat w))
                 (set_currentChatId (Some (chat_id (newChat w)))
                    (pushed (chat_id (newChat w)) (registered w)))))
    as (-> & -> & -> & _ & _ & -> & _).
  cbn [localStorage currentChatId timers fetched view_loaded set_document
       set_currentChatId].
  destruct (pushed_frame (chat_id (newChat w)) (registered w))
    as (-> & _ & -> & _ & -> & _).
  repeat split.
Qed.


Lemma truthy_Some (v : option string) (s : string) :
  truthy v = Some s -> v = Some s /\ s <> "".
Proof.
  unfold truthy. destruct v as [t|]; [|discriminate].
  destruct (String.eqb t "") eqn:E; [discriminate|].
  intros [= ->]. split; [reflexivity|]. now apply String.eqb_neq.
Qed.





(** With a corrupt registry the recovery itself throws inside
    [addMessage], which catches the error: no chat, no retry, no bubble. *)
Lemma addMessage_corrupt_registry_drops :
  let after := snd (addMessage "hello" "user" corrupt_registry) in
  fst (addMessage "hello" "user" corrupt_registry) = Return tt /\
  currentChatId after = None /\
  timers after = [] /\
  messagesEl (document after) = Some [] /\
  registry after = [].
Proof. repeat split; vm_compute; reflexivity. Qed.



(** ** History round trip *)







(** The whole exchange on a first visit: the message is submitted with no
    chat active, the retry shows it, the demo reply arrives and is saved,
    and after a reload on the new chat the view holds the reply above the
    message. *)
Example first_message_survives_reload :
  let submitted := snd (addMessage "hello" "user" first_visit) in
  let retried := snd (fireTimer 0 submitted) in
  let replied := snd (fireTimer 0 retried) in
  let reloaded := openPage chat_page (Some "chat-1700000000000") replied in
  innerHTML (document reloaded) =
    [ {| className := "bubble bot";
         el_content := InnerHTML
           "I have received your message! This is a Text API demo response. Configure Text API key for actual AI responses." |};
      userBubble "hello" ].
Proof. vm_compute. reflexivity. Qed.

(** ** The reply *)

(** A gateway call touches nothing but the request log. *)
Lemma makeApiCall_frame (w : World) (type content : string) (options : Options) :
  exists log, snd (makeApiCall type content options w) = set_fetched log w.
Proof.
  destruct w as [b n c ls d t f s nav].
  unfold makeApiCall, bind, gets, try_catch. cbn [localStorage].
  destruct (String.eqb (getApiKey ls type) ""); [exists f; reflexivity|].
  destruct (String.eqb type "text").
  { unfold callTextApi, completion_content, bind, fetch, throw, ret. cbn.
    destruct (respond b (length f) _) as [response|e]; [|eexists; reflexivity].
    destruct (negb (ok response)); [eexists; reflexivity|].
    destruct (response_json response) as [data|]; [|eexists; reflexivity].
    destruct (json_content data); eexists; reflexivity. }
  destruct (String.eqb type "image").
  { unfold callImageApi, bind, fetch, throw, ret. cbn.
    destruct (respond b (length f) _) as [response|e]; [|eexists; reflexivity].
    destruct (negb (ok response)); [eexists; reflexivity|].
    destruct (response_json response) as [data|]; eexists; reflexivity. }
  destruct (String.eqb type "voice"); [exists f; reflexivity|].
  destruct (String.eqb type "coding"); [|exists f; reflexivity].
  unfold callCodingApi, completion_content, bind, fetch, throw, ret. cbn.
  destruct (respond b (length f) _) as [response|e]; [|eexists; reflexivity].
  destruct (negb (ok response)); [eexists; reflexivity|].
  destruct (response_json response) as [data|]; [|eexists; reflexivity].
  destruct (json_content data); eexists; reflexivity.
Qed.

Lemma without_idem (ref : nat) (children : list Node) :
  without ref (without ref children) = without ref children.
Proof.
  unfold without. induction children as [|n l IH]; [reflexivity|].
  cbn. destruct (negb (node_ref n =? ref)%nat) eqn:E; cbn; [rewrite E|]; now rewrite ?IH.
Qed.




(** ** Media store *)



Lemma read_mediaStorage_ok (w : World) :
  glintMediaStorage (localStorage w) <> Some Malformed ->
  read_mediaStorage w = (Return (mediaStorage_of (localStorage w)), w).
Proof.
  intros H. unfold read_mediaStorage, mediaStorage_of, bind, gets, JSON_parse.
  destruct (glintMediaStorage (localStorage w)) as [[| |m]|];
    try reflexivity; contradiction.
Qed.

Lemma read_mediaStorage_corrupt (w : World) :
  glintMediaStorage (localStorage w) = Some Malformed ->
  read_mediaStorage w = (Throw SyntaxError, w).
Proof.
  intros H. unfold read_mediaStorage, bind, gets, JSON_parse. rewrite H. reflexivity.
Qed.

Lemma media_readable_dec (w : World) :
  {glintMediaStorage (localStorage w) = Some Malformed} +
  {glintMediaStorage (localStorage w) <> Some Malformed}.
Proof.
  destruct (glintMediaStorage (localStorage w)) as [[| |m]|];
    (left; reflexivity) || (right; discriminate).
Qed.











(** ** More on the gateway *)

Lemma trimStart_head (s : string) (c : ascii) (rest : string) :
  trimStart s = String c rest -> is_space c = false.
Proof.
  induction s as [|a s IH]; simpl; [discriminate|].
  destruct (is_space a) eqn:E; [exact IH|].
  intros [= <- _]. exact E.
Qed.

Lemma trimEnd_head (s : string) (c : ascii) (rest : string) :
  (forall a t, s = String a t -> is_space a = false) ->
  trimEnd s = String c rest -> is_space c = false.
Proof.
  destruct s as [|a s]; simpl; [discriminate|].
  intros H. rewrite (H a s eq_refl). simpl.
  intros [= <- _]. exact (H a s eq_refl).
Qed.

Lemma trimEnd_last (s init : string) (c : ascii) :
  trimEnd s = init +:+ String c "" -> is_space c = false.
Proof.
  revert init. induction s as [|a s IH]; intros init; simpl.
  - destruct init; discriminate.
  - destruct (is_space a && String.eqb (trimEnd s) "") eqn:E.
    + destruct init; discriminate.
    + destruct init as [|b init]; simpl.
      * intros [= <- Hs]. rewrite Hs in E. simpl in E.
        now rewrite andb_true_r in E.
      * intros [= _ Hs]. exact (IH _ Hs).
Qed.

(** X3. A reply of the text or the coding provider that [makeApiCall]
    returns is trimmed: it neither starts nor ends with white space. *)
Theorem completion_reply_trimmed
    (w : World) (type content reply : string) (options : Options) :
  type = "text" \/ type = "coding" ->
  fst (makeApiCall type content options w) = Return (Some reply) ->
  (forall c rest, reply = String c rest -> is_space c = false) /\
  (forall init c, reply = init +:+ String c "" -> is_space c = false).
Proof.
  intros Htype. unfold makeApiCall, bind, gets, try_catch.
  destruct (String.eqb (getApiKey (localStorage w) type) ""); [discriminate|].
  assert (Htrim : forall s, Return (Some (trim s)) = Return (A := Reply) (Some reply) ->
            (forall c rest, reply = String c rest -> is_space c = false) /\
            (forall init c, reply = init +:+ String c "" -> is_space c = false)).
  { intros s [= <-]. unfold trim. split.
    - intros c rest H. apply (trimEnd_head (trimStart s) c rest); [|exact H].
      intros a t. apply trimStart_head.
    - intros init c H. exact (trimEnd_last _ _ _ H). }
  destruct Htype as [-> | ->]; cbn [String.eqb Ascii.eqb Bool.eqb].
  - unfold callTextApi, completion_content, bind, fetch, throw, ret.
    destruct (respond _ _ _) as [response|e]; [|discriminate].
    destruct (negb (ok response)); [discriminate|].
    destruct (response_json response) as [data|]; [|discriminate].
    destruct (json_content data) as [c|]; [|discriminate].
    cbn. apply Htrim.
  - unfold callCodingApi, completion_content, bind, fetch, throw, ret.
    destruct (respond _ _ _) as [response|e]; [|discriminate].
    destruct (negb (ok response)); [discriminate|].
    destruct (response_json response) as [data|]; [|discriminate].
    destruct (json_content data) as [c|]; [|discriminate].
    cbn. apply Htrim.
Qed.

Lemma completion_reply_trimmed_witness :
  (forall c rest, "Salaam, Guru!" = String c rest -> is_space c = false) /\
  (forall init c, "Salaam, Guru!" = init +:+ String c "" -> is_space c = false).
Proof.
  apply (completion_reply_trimmed (at_work answering_browser) "text" "hello"
           "Salaam, Guru!" no_options).
  - left. reflexivity.
  - reflexivity.
Defined.

(** X1. With a credential configured for text, image or coding,
    [makeApiCall] sends exactly one request, whatever the provider answers:
    a POST to the endpoint of the category that carries the stored key in
    its credential header. *)
Theorem gateway_sends_one_request
    (w : World) (type content : string) (options : Options) :
  type = "text" \/ type = "image" \/ type = "coding" ->
  configured (localStorage w) type = true ->
  exists request,
    fetched (snd (makeApiCall type content options w))
      = (fetched w ++ [request])%list /\
    url request = endpoint type /\
    method request = "POST" /\
    In (credential_header type (getApiKey (localStorage w) type)) (headers request).
Proof.
  intros Htype Hc.
  assert (Hin : In type categories)
    by (simpl; destruct Htype as [->|[->| ->]]; auto).
  pose proof (configured_key _ _ Hin Hc) as Hkey.
  rewrite (makeApiCall_key w type content options Hkey).
  unfold try_catch.
  destruct Htype as [->|[->| ->]]; cbn [String.eqb Ascii.eqb Bool.eqb].
  - unfold callTextApi, completion_content, bind, fetch, throw, ret.
    destruct (respond _ _ _) as [response|e];
      [destruct (negb (ok response));
         [|destruct (response_json response) as [data|];
             [destruct (json_content data)|]]|];
      (eexists; split; [reflexivity | repeat split; cbn; auto]).
  - unfold callImageApi, bind, fetch, throw, ret.
    destruct (respond _ _ _) as [response|e];
      [destruct (negb (ok response));
         [|destruct (response_json response) as [data|]]|];
      (eexists; split; [reflexivity | repeat split; cbn; auto]).
  - unfold callCodingApi, completion_content, bind, fetch, throw, ret.
    destruct (respond _ _ _) as [response|e];
      [destruct (negb (ok response));
         [|destruct (response_json response) as [data|];
             [destruct (json_content data)|]]|];
      (eexists; split; [reflexivity | repeat split; cbn; auto]).
Qed.

Lemma gateway_sends_one_request_witness :
  exists request,
    fetched (snd (makeApiCall "image" "draw a cat" no_options
                    (at_work answering_browser))) = [request] /\
    url request = deepAiUrl /\
    method request = "POST" /\
    In ("api-key", "key-image") (headers request).
Proof.
  apply (gateway_sends_one_request (at_work answering_browser) "image"
           "draw a cat" no_options).
  - right. left. reflexivity.
  - reflexivity.
Defined.



(** ** The demo responder and the reply task *)
















(** X6. In an active chat with a voice credential configured, the reply to
    a voice request is an error bubble whose text is the message of
    [callVoiceApi] itself, without the "API Error" wrapping: the task takes
    the loading bubble away, persists the view, and sends no request. *)
Theorem voice_reply_is_the_notice
    (w : World) (text chatId : string) (loadingMessage : nat)
    (children : list Node) :
  truthy (currentChatId w) = Some chatId ->
  messagesEl (document w) = Some children ->
  configured (localStorage w) "voice" = true ->
  let replied := snd (botResponseTask text "voice" loadingMessage w) in
  innerHTML (document replied)
    = {| className := "bubble bot error";
         el_content := TextContent
           (if String.eqb (voiceLanguage w) "roman-urdu"
            then voiceErrorRomanUrdu else voiceErrorEnglish) |}
      :: map node_el (without loadingMessage children) /\
  historyOf replied chatId = innerHTML (document replied) /\
  fetched replied = fetched w.
Proof.
  intros Hchat Hview Hc replied.
  enough (H : exists r,
            botResponseTask text "voice" loadingMessage w = (Return tt, r) /\
            innerHTML (document r)
              = {| className := "bubble bot error";
                   el_content := TextContent
                     (if String.eqb (voiceLanguage w) "roman-urdu"
                      then voiceErrorRomanUrdu else voiceErrorEnglish) |}
                :: map node_el (without loadingMessage children) /\
            historyOf r chatId = innerHTML (document r) /\
            fetched r = fetched w)
    by (destruct H as (r & E & H); unfold replied; rewrite E; exact H).
  assert (Hkey : getApiKey (localStorage w) "voice" <> "")
    by (apply configured_key; [simpl; auto | exact Hc]).
  assert (Hcall : makeApiCall "voice" text no_options w
                  = (Throw (Error (if String.eqb (voiceLanguage w) "roman-urdu"
                                   then voiceErrorRomanUrdu else voiceErrorEnglish)), w))
    by (rewrite (makeApiCall_key w "voice" text no_options Hkey); reflexivity).
  assert (Hproxy : includes (if String.eqb (voiceLanguage w) "roman-urdu"
                             then voiceErrorRomanUrdu else voiceErrorEnglish)
                     "backend proxy" = true)
    by (destruct voice_messages as (_ & _ & Hru & Hen);
        destruct (String.eqb (voiceLanguage w) "roman-urdu"); assumption).
  apply String.eqb_neq in Hkey.
  set (notice := if String.eqb (voiceLanguage w) "roman-urdu"
                 then voiceErrorRomanUrdu else voiceErrorEnglish) in *.
  clearbody notice. clear Hc replied.
  destruct w as [b n c ls d t f s nav].
  cbn [localStorage currentChatId document] in Hchat, Hview, Hkey.
  destruct d as [m title before after next]. cbn in Hview. subst m.
  unfold botResponseTask, try_catch. unfold bind at 1, gets at 1.
  cbn [localStorage]. rewrite Hkey. cbn [negb].
  unfold bind at 1. rewrite Hcall.
  cbv [bind remove modify createElement prepend saveCurrentChat gets ret throw
       message_of].
  cbn. rewrite Hproxy, Hchat. cbn.
  eexists. split; [reflexivity|]. cbn.
  repeat split. unfold historyOf. cbn. now rewrite lookup_insert_eq.
Qed.

Lemma voice_reply_is_the_notice_witness :
  let replied := snd (botResponseTask "say hello" "voice" 7 (at_work answering_browser)) in
  innerHTML (document replied)
    = [{| className := "bubble bot error";
          el_content := TextContent voiceErrorEnglish |}] /\
  historyOf replied "chat-1" = innerHTML (document replied) /\
  fetched replied = [].
Proof.
  apply (voice_reply_is_the_notice (at_work answering_browser) "say hello"
           "chat-1" 7 []); reflexivity.
Defined.

Lemma displayMediaInChat_found
    (w : World) (toLocaleTimeString : string -> string)
    (mediaId mediaType chatId : string) (children : list Node)
    (mediaItem : MediaAsset) :
  truthy (currentChatId w) = Some chatId ->
  messagesEl (document w) = Some children ->
  findMedia mediaId (mediaOf w chatId) = Some mediaItem ->
  displayMediaInChat toLocaleTimeString mediaId mediaType w =
    (Return tt,
     set_localStorage
       (set_messages_html
          (<[chatId := mediaBubble toLocaleTimeString mediaType mediaItem
                       :: map node_el children]> (messages_html (localStorage w)))
          (localStorage w))
       (set_document
          (set_messagesEl
             (Some ({| node_ref := next_ref (document w);
                       node_el := mediaBubble toLocaleTimeString mediaType mediaItem |}
                    :: children))
             (set_next_ref (S (next_ref (document w))) (document w))) w)).
Proof.
  intros Hchat Hview Hfind.
  destruct (truthy_Some _ _ Hchat) as [Hcur _].
  destruct (media_readable_dec w) as [Hbad|Hok].
  { unfold mediaOf, mediaStorage_of in Hfind. rewrite Hbad in Hfind.
    rewrite lookup_empty in Hfind. discriminate. }
  unfold displayMediaInChat, try_catch. unfold bind at 1.
  rewrite (read_mediaStorage_ok w Hok).
  unfold bind at 1, gets at 1. rewrite Hcur.
  change (default "null" (Some chatId)) with chatId.
  unfold mediaOf in Hfind. rewrite Hfind.
  destruct w as [b n c ls d t f s nav]. cbn in Hchat, Hview.
  destruct d as [m title before after next]. cbn in Hview. subst m.
  cbv [bind gets createElement prepend modify saveCurrentChat ret]. cbn.
  rewrite Hchat. reflexivity.
Qed.

(** X9. In an active chat, [displayMediaInChat] of an asset stored for the
    chat puts its bubble at the head of the view and persists the view as
    the history of the chat; the media index is left as it was. The asset
    shown is the first of the chat with that id. *)
Theorem displayMediaInChat_shows
    (w : World) (toLocaleTimeString : string -> string)
    (mediaId mediaType chatId : string) (children : list Node)
    (mediaItem : MediaAsset) :
  truthy (currentChatId w) = Some chatId ->
  messagesEl (document w) = Some children ->
  findMedia mediaId (mediaOf w chatId) = Some mediaItem ->
  let displayed := snd (displayMediaInChat toLocaleTimeString mediaId mediaType w) in
  innerHTML (document displayed)
    = mediaBubble toLocaleTimeString mediaType mediaItem :: map node_el children /\
  historyOf displayed chatId = innerHTML (document displayed) /\
  media_id mediaItem = mediaId /\
  (forall other, mediaOf displayed other = mediaOf w other).
Proof.
  intros Hchat Hview Hfind displayed. unfold displayed.
  rewrite (displayMediaInChat_found w toLocaleTimeString mediaId mediaType chatId
             children mediaItem Hchat Hview Hfind).
  cbn [snd]. repeat split.
  - unfold historyOf. cbn. now rewrite lookup_insert_eq.
  - unfold findMedia in Hfind. apply List.find_some in Hfind.
    now apply String.eqb_eq.
Qed.

Lemma displayMediaInChat_shows_witness :
  let stored := photoData first_visit "chat-0" "data:image/png;base64,AAAA" "old.png" in
  let w := set_currentChatId (Some "chat-0") with_media in
  let displayed :=
    snd (displayMediaInChat (fun t => t) "photo-1700000000000" "photo" w) in
  innerHTML (document displayed)
    = mediaBubble (fun t => t) "photo" stored :: map node_el [] /\
  historyOf displayed "chat-0" = innerHTML (document displayed) /\
  media_id stored = "photo-1700000000000" /\
  (forall other, mediaOf displayed other = mediaOf w other).
Proof.
  apply (displayMediaInChat_shows (set_currentChatId (Some "chat-0") with_media)
           (fun t => t) "photo-1700000000000" "photo" "chat-0" []
           (photoData first_visit "chat-0" "data:image/png;base64,AAAA" "old.png"));
    reflexivity.
Defined.

(** X10. [displayMediaInChat] of an id that no asset of the current chat
    has, or with a media index that is not JSON, changes nothing: no
    bubble, no write, no error. *)
Theorem displayMediaInChat_missing
    (w : World) (toLocaleTimeString : string -> string) (mediaId mediaType : string) :
  findMedia mediaId (mediaOf w (default "null" (currentChatId w))) = None ->
  displayMediaInChat toLocaleTimeString mediaId mediaType w = (Return tt, w).
Proof.
  intros Hfind.
  unfold displayMediaInChat, try_catch. unfold bind at 1.
  destruct (media_readable_dec w) as [Hbad|Hok].
  { now rewrite (read_mediaStorage_corrupt w Hbad). }
  rewrite (read_mediaStorage_ok w Hok).
  unfold bind at 1, gets at 1.
  unfold mediaOf in Hfind. rewrite Hfind. reflexivity.
Qed.

Lemma displayMediaInChat_missing_witness :
  displayMediaInChat (fun t => t) "photo-1700000000000" "photo" with_media
    = (Return tt, with_media).
Proof.
  apply (displayMediaInChat_missing with_media (fun t => t)
           "photo-1700000000000" "photo").
  reflexivity.
Defined.

(** X11. In an active chat [addMessage] writes nothing to [localStorage]:
    the bubbles it shows are persisted only when a later step saves the
    view. A user's message gets its bubble, the loading bubble above it and
    one reply due in a second; a message of any other type gets its bubble
    alone and schedules nothing. *)
Theorem addMessage_does_not_persist
    (w : World) (text type chatId : string) (children : list Node) :
  truthy (currentChatId w) = Some chatId ->
  messagesEl (document w) = Some children ->
  let added := snd (addMessage text type w) in
  localStorage added = localStorage w /\
  (type = "user" ->
   timers added
     = (timers w ++ [(1000, BotResponse text (detectApiType text)
                             (S (next_ref (document w))))])%list /\
   innerHTML (document added)
     = loadingBubble text :: userBubble text :: map node_el children) /\
  (type <> "user" ->
   timers added = timers w /\
   innerHTML (document added)
     = {| className := "bubble " +:+ type; el_content := TextContent text |}
       :: map node_el children).
Proof.
  intros Hchat Hview.
  destruct w as [b n c ls d t f s nav]. cbn in Hchat, Hview.
  destruct d as [m title before after next]. cbn in Hview. subst m.
  unfold addMessage, try_catch.
  cbv [bind gets]. cbn [document messagesEl currentChatId]. rewrite Hchat.
  destruct (String.eqb type "user") eqn:Etype.
  - apply String.eqb_eq in Etype. subst type.
    cbv [createElement prepend modify setTimeout ret]. cbn.
    split; [reflexivity|]. split; [|congruence].
    intros _. split; reflexivity.
  - apply String.eqb_neq in Etype.
    cbv [createElement prepend modify ret]. cbn.
    split; [reflexivity|]. split; [congruence|].
    intros _. split; reflexivity.
Qed.

Lemma addMessage_does_not_persist_witness :
  let added := snd (addMessage "Error saving voice message." "bot" active_chat) in
  localStorage added = localStorage active_chat /\
  ("bot" = "user" ->
   timers added
     = (timers active_chat
        ++ [(1000, BotResponse "Error saving voice message."
                     (detectApiType "Error saving voice message.")
                     (S (next_ref (document active_chat))))])%list /\
   innerHTML (document added)
     = loadingBubble "Error saving voice message."
       :: userBubble "Error saving voice message." :: map node_el []) /\
  ("bot" <> "user" ->
   timers added = timers active_chat /\
   innerHTML (document added)
     = {| className := "bubble " +:+ "bot";
          el_content := TextContent "Error saving voice message." |}
       :: map node_el []).
Proof.
  apply (addMessage_does_not_persist active_chat "Error saving voice message."
           "bot" "chat-1" []); reflexivity.
Defined.






(** X13. With no chat active, the media handlers drop what they are given
    without a word: the picked or captured photo and the recording are not
    stored, no bubble is shown, no chat is started and nothing is
    scheduled; even the recorder's "Error saving voice message." is
    dropped. Only the clock has been read for the file name. *)
Theorem uploads_need_an_active_chat
    (w : World) (toLocaleTimeString : string -> string)
    (result fileName imageData : string) (audioBlob : Blob) :
  truthy (currentChatId w) = None ->
  photoPicked toLocaleTimeString result fileName w = (Return tt, w) /\
  photoCaptured toLocaleTimeString imageData w
    = (Return tt, set_clock_reads (S (clock_reads w)) w) /\
  recordingSaved toLocaleTimeString (Some audioBlob) w
    = (Return tt, set_clock_reads (S (clock_reads w)) w).
Proof.
  intros Hchat.
  destruct w as [b n c ls d t f s nav]. cbn in Hchat.
  destruct d as [m title before after next].
  destruct c as [[|a rest]|]; try discriminate;
    (repeat split); try reflexivity; destruct m; reflexivity.
Qed.

Lemma uploads_need_an_active_chat_witness :
  photoPicked (fun t => t) "data:image/png;base64,AAAA" "cat.png" first_visit
    = (Return tt, first_visit) /\
  photoCaptured (fun t => t) "data:image/png;base64,AAAA" first_visit
    = (Return tt, set_clock_reads (S (clock_reads first_visit)) first_visit) /\
  recordingSaved (fun t => t) (Some {| dataURL := Some "data:audio/wav;base64,CCCC" |})
      first_visit
    = (Return tt, set_clock_reads (S (clock_reads first_visit)) first_visit).
Proof.
  apply (uploads_need_an_active_chat first_visit (fun t => t)
           "data:image/png;base64,AAAA" "cat.png" "data:image/png;base64,AAAA"
           {| dataURL := Some "data:audio/wav;base64,CCCC" |}).
  reflexivity.
Defined.



Lemma reply_after_gateway
    (w : World) (text apiType chatId : string) (loadingMessage : nat)
    (children : list Node) (outcome : Outcome Reply) (log : list Request) :
  truthy (currentChatId w) = Some chatId ->
  messagesEl (document w) = Some children ->
  getApiKey (localStorage w) apiType <> "" ->
  makeApiCall apiType text no_options w = (outcome, set_fetched log w) ->
  exists replied,
    botResponseTask text apiType loadingMessage w = (Return tt, replied) /\
    fetched replied = log /\
    historyOf replied chatId = innerHTML (document replied) /\
    innerHTML (document replied)
      = match outcome with
        | Return (Some r) =>
            {| className := "bubble bot";
               el_content := InnerHTML
                 (if String.eqb apiType "image" && negb (String.eqb r "")
                     && startsWith r "http"
                  then generatedImage r text else replace_newlines r) |}
        | Return None =>
            {| className := "bubble bot error";
               el_content := TextContent
                 (if String.eqb apiType "voice"
                     && includes (message_of (browser w) TypeError) "backend proxy"
                  then message_of (browser w) TypeError
                  else apiErrorText (message_of (browser w) TypeError)) |}
        | Throw e =>
            {| className := "bubble bot error";
               el_content := TextContent
                 (if String.eqb apiType "voice"
                     && includes (message_of (browser w) e) "backend proxy"
                  then message_of (browser w) e
                  else apiErrorText (message_of (browser w) e)) |}
        end :: map node_el (without loadingMessage children).
Proof.
  intros Hchat Hview Hkey Hcall.
  destruct w as [b n c ls d t f s nav].
  cbn [localStorage currentChatId document] in Hchat, Hview, Hkey.
  destruct d as [m title before after next]. cbn in Hview. subst m.
  assert (Hsaved : forall (h : Html) (store : gmap string Html),
            default [] (<[chatId := h]> store !! chatId) = h)
    by (intros h store; now rewrite lookup_insert_eq).
  apply String.eqb_neq in Hkey.
  unfold botResponseTask, try_catch. unfold bind at 1, gets at 1.
  cbn [localStorage]. rewrite Hkey. cbn [negb].
  unfold bind at 1. rewrite Hcall.
  destruct outcome as [[r|]|e].
  - destruct (String.eqb apiType "image" && negb (String.eqb r "") && startsWith r "http");
      cbv [bind remove modify createElement prepend saveCurrentChat gets ret throw];
      cbn; rewrite Hchat; cbn;
      eexists; (split; [reflexivity|]); (split; [reflexivity|]);
      (split; [apply Hsaved | reflexivity]).
  - cbv [bind remove modify createElement prepend saveCurrentChat gets ret throw].
    cbn. rewrite Hchat. cbn.
    fold (without loadingMessage children).
    fold (without loadingMessage (without loadingMessage children)).
    rewrite without_idem.
    eexists; (split; [reflexivity|]); (split; [reflexivity|]);
      (split; [apply Hsaved | reflexivity]).
  - cbv [bind remove modify createElement prepend saveCurrentChat gets ret throw].
    cbn. rewrite Hchat. cbn.
    eexists; (split; [reflexivity|]); (split; [reflexivity|]);
      (split; [apply Hsaved | reflexivity]).
Qed.

Lemma link_not_empty (r : string) :
  String.eqb "image" "image" && negb (String.eqb r "") && startsWith r "http"
  = startsWith r "http".
Proof. destruct r; reflexivity. Qed.

(** X15. In an active chat with an image credential, when the provider
    answers the request with an ok JSON body, the reply task sends one
    request, the whole message as the prompt, and shows the [output_url] of
    the body: as the generated-image card when it starts with "http", as
    plain text otherwise; a body without [output_url] ends in the error
    bubble. The loading bubble is gone and the view is persisted. *)
Theorem image_reply_is_rendered
    (w : World) (text chatId : string) (loadingMessage : nat)
    (children : list Node) (response : Response) (data : ResponseJson) :
  truthy (currentChatId w) = Some chatId ->
  messagesEl (document w) = Some children ->
  configured (localStorage w) "image" = true ->
  (forall request,
     respond (browser w) (length (fetched w)) request = Return response) ->
  ok response = true ->
  response_json response = Some data ->
  let replied := snd (botResponseTask text "image" loadingMessage w) in
  innerHTML (document replied)
    = match json_output_url data with
      | Some link =>
          {| className := "bubble bot";
             el_content := InnerHTML
               (if startsWith link "http" then generatedImage link text
                else replace_newlines link) |}
      | None =>
          {| className := "bubble bot error";
             el_content := TextContent
               (apiErrorText (engine_message (browser w) TypeError)) |}
      end :: map node_el (without loadingMessage children) /\
  historyOf replied chatId = innerHTML (document replied) /\
  fetched replied
    = (fetched w ++
       [{| url := deepAiUrl; method := "POST";
           headers := [("api-key", getApiKey (localStorage w) "image")];
           body := FormData [("text", text)] |}])%list.
Proof.
  intros Hchat Hview Hc Hanswer Hok Hjson replied.
  assert (Hkey : getApiKey (localStorage w) "image" <> "")
    by (apply configured_key; [simpl; auto | exact Hc]).
  assert (Hcall : makeApiCall "image" text no_options w
                  = (Return (json_output_url data),
                     set_fetched
                       (fetched w ++
                        [{| url := deepAiUrl; method := "POST";
                            headers := [("api-key", getApiKey (localStorage w) "image")];
                            body := FormData [("text", text)] |}])%list w)).
  { rewrite (makeApiCall_key w "image" text no_options Hkey).
    unfold try_catch. cbn [String.eqb Ascii.eqb Bool.eqb].
    unfold callImageApi, bind, fetch. rewrite Hanswer, Hok. cbn [negb].
    rewrite Hjson. reflexivity. }
  destruct (reply_after_gateway w text "image" chatId loadingMessage children _ _
              Hchat Hview Hkey Hcall) as (r & E & Hlog & Hsaved & Hshown).
  unfold replied. rewrite E. cbn [snd].
  split; [|split; [exact Hsaved | exact Hlog]].
  rewrite Hshown. destruct (json_output_url data) as [link|]; [|reflexivity].
  now rewrite link_not_empty.
Qed.

Lemma image_reply_is_rendered_witness :
  let replied :=
    snd (botResponseTask "draw a cat" "image" 7 (at_work answering_browser)) in
  innerHTML (document replied)
    = match Some "https://api.deepai.org/job-view-file/1.jpg" with
      | Some link =>
          {| className := "bubble bot";
             el_content := InnerHTML
               (if startsWith link "http" then generatedImage link "draw a cat"
                else replace_newlines link) |}
      | None =>
          {| className := "bubble bot error";
             el_content := TextContent
               (apiErrorText (engine_message answering_browser TypeError)) |}
      end :: map node_el (without 7 []) /\
  historyOf replied "chat-1" = innerHTML (document replied) /\
  fetched replied
    = ([] ++
       [{| url := deepAiUrl; method := "POST";
           headers := [("api-key", "key-image")];
           body := FormData [("text", "draw a cat")] |}])%list.
Proof.
  apply (image_reply_is_rendered (at_work answering_browser) "draw a cat" "chat-1"
           7 []
           {| ok := true; status := 200; statusText := "OK";
              response_text := "";
              response_json := Some
                {| json_message := None;
                   json_content := Some "  Salaam, Guru!  ";
                   json_output_url := Some "https://api.deepai.org/job-view-file/1.jpg";
                   json_text := None |} |}
           {| json_message := None;
              json_content := Some "  Salaam, Guru!  ";
              json_output_url := Some "https://api.deepai.org/job-view-file/1.jpg";
              json_text := None |});
    reflexivity.
Defined.

(** X16. In an active chat, when a key is found for the category and the
    gateway throws, for a category other than voice, the reply task shows
    the error in an error bubble as "❌ API Error: <message>. Please check
    your API configuration.", takes the loading bubble away and persists
    the view: the failure never escapes the task. *)
Theorem reply_error_is_wrapped
    (w : World) (text apiType chatId : string) (loadingMessage : nat)
    (children : list Node) (e : Exn) :
  truthy (currentChatId w) = Some chatId ->
  messagesEl (document w) = Some children ->
  getApiKey (localStorage w) apiType <> "" ->
  apiType <> "voice" ->
  fst (makeApiCall apiType text no_options w) = Throw e ->
  let replied := snd (botResponseTask text apiType loadingMessage w) in
  innerHTML (document replied)
    = {| className := "bubble bot error";
         el_content := TextContent
           ("❌ API Error: " +:+ message_of (browser w) e
            +:+ ". Please check your API configuration.") |}
      :: map node_el (without loadingMessage children) /\
  historyOf replied chatId = innerHTML (document replied).
Proof.
  intros Hchat Hview Hkey Hvoice Hthrow.
  destruct (makeApiCall_frame w apiType text no_options) as [log Hlog].
  assert (Hcall : makeApiCall apiType text no_options w = (Throw e, set_fetched log w)).
  { destruct (makeApiCall apiType text no_options w) as [o w1].
    cbn in Hthrow, Hlog. now subst. }
  destruct (reply_after_gateway w text apiType chatId loadingMessage children _ _
              Hchat Hview Hkey Hcall) as (r & E & _ & Hsaved & Hshown).
  rewrite E. cbn [snd]. split; [|exact Hsaved].
  rewrite Hshown. apply String.eqb_neq in Hvoice. now rewrite Hvoice.
Qed.

Lemma reply_error_is_wrapped_witness :
  let replied := snd (botResponseTask "hello" "text" 7 (at_work rejecting_browser)) in
  innerHTML (document replied)
    = {| className := "bubble bot error";
         el_content := TextContent
           ("❌ API Error: "
            +:+ message_of rejecting_browser
                  (Error "DeepSeek Text API Error: 401 - Invalid key")
            +:+ ". Please check your API configuration.") |}
      :: map node_el (without 7 []) /\
  historyOf replied "chat-1" = innerHTML (document replied).
Proof.
  apply (reply_error_is_wrapped (at_work rejecting_browser) "hello" "text"
           "chat-1" 7 [] (Error "DeepSeek Text API Error: 401 - Invalid key")).
  - reflexivity.
  - reflexivity.
  - discriminate.
  - discriminate.
  - reflexivity.
Defined.




Lemma trimStart_visible (s : string) (c : ascii) :
  In c (list_ascii_of_string s) -> is_space c = false ->
  exists a rest, trimStart s = String a rest /\ is_space a = false.
Proof.
  induction s as [|a s IH]; [intros []|].
  intros [->|Hin] Hc; cbn.
  - rewrite Hc. eauto.
  - destruct (is_space a) eqn:E; [exact (IH Hin Hc)|eauto].
Qed.

Lemma trim_visible (s : string) (c : ascii) :
  In c (list_ascii_of_string s) -> is_space c = false -> trim s <> "".
Proof.
  intros Hin Hc. unfold trim.
  destruct (trimStart_visible s c Hin Hc) as (a & rest & -> & Ha).
  cbn. rewrite Ha. discriminate.
Qed.

Lemma trim_empty_blank (s : string) :
  trim s = "" -> forall c, In c (list_ascii_of_string s) -> is_space c = true.
Proof.
  intros H c Hin. destruct (is_space c) eqn:E; [reflexivity|].
  destruct (trim_visible s c Hin E H).
Qed.





Lemma getItem_setItem_same (ls : LocalStorage) (type : string) (v : option string) :
  In type categories -> getItem_api (setItem_api type v ls) type = v.
Proof.
  simpl. intros [<-|[<-|[<-|[<-|[]]]]]; reflexivity.
Qed.

Lemma getItem_setItem_other (ls : LocalStorage) (type other : string)
    (v : option string) :
  other <> type -> getItem_api (setItem_api type v ls) other = getItem_api ls other.
Proof.
  intros Hne. unfold setItem_api, getItem_api.
  destruct (String.eqb type "text") eqn:E1;
    [apply String.eqb_eq in E1; subst type;
     apply String.eqb_neq in Hne; now rewrite Hne|].
  destruct (String.eqb type "image") eqn:E2;
    [apply String.eqb_eq in E2; subst type;
     apply String.eqb_neq in Hne; now rewrite Hne|].
  destruct (String.eqb type "voice") eqn:E3;
    [apply String.eqb_eq in E3; subst type;
     apply String.eqb_neq in Hne; now rewrite Hne|].
  destruct (String.eqb type "coding") eqn:E4;
    [apply String.eqb_eq in E4; subst type;
     apply String.eqb_neq in Hne; now rewrite Hne|].
  reflexivity.
Qed.


Lemma getApiKey_getItem (ls : LocalStorage) (type : string) :
  In type categories -> getApiKey ls type = or_else (getItem_api ls type) "".
Proof.
  simpl. intros [<-|[<-|[<-|[<-|[]]]]]; reflexivity.
Qed.



(** X19. Clearing a key: with a blank input, the save button of a category
    removes its key and empties the input; the status of the category is
    Not Configured and a gateway call for it throws the "not configured"
    error without a request. The keys of the other categories stay. *)
Theorem cleared_key_is_gone
    (w : World) (type inputValue content : string) (options : Options) :
  In type categories ->
  trim inputValue = "" ->
  let cleared := snd (saveApiClick type inputValue w) in
  fst (saveApiClick type inputValue w)
    = Return {| alerted := "⚠️ " +:+ apiLabel type +:+ " API key cleared.";
                input_value := "" |} /\
  apiStatus (localStorage cleared) type = "🔴 Not Configured" /\
  makeApiCall type content options cleared
    = (Throw (Error (notConfigured type)), cleared) /\
  (forall other, other <> type ->
     getItem_api (localStorage cleared) other = getItem_api (localStorage w) other).
Proof.
  intros Hin Hblank cleared.
  assert (E : saveApiClick type inputValue w
              = (Return {| alerted := "⚠️ " +:+ apiLabel type +:+ " API key cleared.";
                           input_value := "" |},
                 set_localStorage (setItem_api type None (localStorage w)) w)).
  { unfold saveApiClick. rewrite Hblank. reflexivity. }
  unfold cleared. rewrite E. cbn [fst snd].
  assert (Hkey : getApiKey (localStorage
                    (set_localStorage (setItem_api type None (localStorage w)) w)) type
                 = "").
  { destruct w as [b n c ls d t f s nav]. cbn [localStorage set_localStorage].
    now rewrite (getApiKey_getItem _ _ Hin), (getItem_setItem_same _ _ _ Hin). }
  split; [reflexivity|]. split.
  { destruct w as [b n c ls d t f s nav]. cbn [localStorage set_localStorage].
    unfold apiStatus, configured. now rewrite (getItem_setItem_same _ _ _ Hin). }
  split; [exact (makeApiCall_no_key _ type content options Hkey)|].
  intros other Hother.
  destruct w as [b n c ls d t f s nav]. cbn [localStorage set_localStorage].
  now apply getItem_setItem_other.
Qed.

Lemma cleared_key_is_gone_witness :
  let cleared := snd (saveApiClick "text" "  " (at_work answering_browser)) in
  fst (saveApiClick "text" "  " (at_work answering_browser))
    = Return {| alerted := "⚠️ " +:+ apiLabel "text" +:+ " API key cleared.";
                input_value := "" |} /\
  apiStatus (localStorage cleared) "text" = "🔴 Not Configured" /\
  makeApiCall "text" "hello" no_options cleared
    = (Throw (Error (notConfigured "text")), cleared) /\
  (forall other, other <> "text" ->
     getItem_api (localStorage cleared) other
     = getItem_api (localStorage (at_work answering_browser)) other).
Proof.
  apply (cleared_key_is_gone (at_work answering_browser) "text" "  " "hello"
           no_options).
  - simpl. auto.
  - reflexivity.
Defined.

Lemma length_append (a b : string) :
  String.length (a +:+ b) = (String.length a + String.length b)%nat.
Proof.
  induction a as [|c a IH]; [reflexivity|].
  change (S (String.length (a +:+ b)) = S (String.length a + String.length b)).
  now rewrite IH.
Qed.

Lemma two_digits (n : nat) :
  (n < 100)%nat -> String.length (padStart 2 (pretty (Z.of_nat n))) = 2%nat.
Proof.
  intros H.
  do 100 (destruct n as [|n]; [vm_compute; reflexivity|]).
  lia.
Qed.

(** X20. The recording timer, for a recording that has run less than a
    hundred minutes: the text is the whole minutes and the remaining
    seconds of the elapsed time, each padded to two digits, five
    characters in all. *)
Theorem recording_timer_format (now recordingStartTime : Z) :
  (recordingStartTime <= now < recordingStartTime + 6000000)%Z ->
  let seconds := ((now - recordingStartTime) / 1000)%Z in
  recordingTimerText now recordingStartTime
    = padStart 2 (pretty (seconds / 60)%Z) +:+ ":"
      +:+ padStart 2 (pretty (seconds mod 60)%Z) /\
  (0 <= seconds / 60 < 100)%Z /\
  String.length (recordingTimerText now recordingStartTime) = 5%nat.
Proof.
  intros H seconds.
  assert (Hs : (0 <= seconds < 6000)%Z).
  { unfold seconds. split.
    - apply Z.div_pos; lia.
    - apply Z.div_lt_upper_bound; lia. }
  assert (Hm : (0 <= seconds / 60 < 100)%Z).
  { split; [apply Z.div_pos; lia | apply Z.div_lt_upper_bound; lia]. }
  assert (Hr : (0 <= seconds mod 60 < 60)%Z) by (apply Z.mod_pos_bound; lia).
  assert (E : recordingTimerText now recordingStartTime
              = padStart 2 (pretty (seconds / 60)%Z) +:+ ":"
                +:+ padStart 2 (pretty (seconds mod 60)%Z)).
  { unfold recordingTimerText, timerMinutes, timerSeconds, elapsedSeconds.
    fold seconds. rewrite Z.rem_mod_nonneg by lia. reflexivity. }
  split; [exact E|]. split; [exact Hm|].
  rewrite E, !length_append.
  rewrite <- (Z2Nat.id (seconds / 60)), <- (Z2Nat.id (seconds mod 60)) by lia.
  rewrite !two_digits by lia. reflexivity.
Qed.

Lemma recording_timer_format_witness :
  let seconds := ((1700000075500 - 1700000000000) / 1000)%Z in
  recordingTimerText 1700000075500 1700000000000
    = padStart 2 (pretty (seconds / 60)%Z) +:+ ":"
      +:+ padStart 2 (pretty (seconds mod 60)%Z) /\
  (0 <= seconds / 60 < 100)%Z /\
  String.length (recordingTimerText 1700000075500 1700000000000) = 5%nat.
Proof.
  apply (recording_timer_format 1700000075500 1700000000000). lia.
Defined.

(** X21. The theme script keeps the theme dark or light: whatever name
    [applyTheme] is given and whatever is stored, the class of the document
    is 'dark' or 'light' afterwards, the stored theme is that class, and it
    is 'dark' only when 'dark' was asked for. [initializeTheme] is
    [applyTheme] of the stored theme, and running it again changes
    nothing. *)
Theorem theme_is_dark_or_light (themeName : option string) (st : Theme.State) :
  let applied := Theme.applyTheme themeName st in
  (Theme.documentClass applied = "dark" \/ Theme.documentClass applied = "light") /\
  Theme.theme applied = Some (Theme.documentClass applied) /\
  (Theme.documentClass applied = "dark" <-> themeName = Some "dark") /\
  Theme.initializeTheme st = Theme.applyTheme (Theme.theme st) st /\
  Theme.initializeTheme (Theme.initializeTheme st) = Theme.initializeTheme st.
Proof.
  assert (Hcase : forall name : string,
            name = "dark" \/
            (String.eqb name "dark" = false /\
             (name = "light" \/ String.eqb name "light" = false))).
  { intros name. destruct (String.eqb name "dark") eqn:E.
    - left. now apply String.eqb_eq.
    - right. split; [reflexivity|].
      destruct (String.eqb name "light") eqn:E'; [left; now apply String.eqb_eq|auto]. }
  assert (Happly : forall (name : option string) (s : Theme.State),
            Theme.applyTheme name s
            = {| Theme.theme := Some (if match name with
                                         | Some n => String.eqb n "dark"
                                         | None => false
                                         end then "dark" else "light");
                 Theme.documentClass := if match name with
                                           | Some n => String.eqb n "dark"
                                           | None => false
                                           end then "dark" else "light" |}).
  { intros [name|] s; [|reflexivity].
    unfold Theme.applyTheme, Theme.valid.
    destruct (Hcase name) as [->|[Hd [->|Hl]]]; [reflexivity|reflexivity|].
    rewrite Hd, Hl. cbn. now rewrite !orb_true_r. }
  assert (Hinit : Theme.initializeTheme st = Theme.applyTheme (Theme.theme st) st).
  { rewrite (Happly (Theme.theme st)).
    unfold Theme.initializeTheme. rewrite Happly. unfold Theme.valid, or_else.
    destruct (Theme.theme st) as [name|]; [|reflexivity].
    destruct (Hcase name) as [->|[Hd [->|Hl]]]; [reflexivity|reflexivity|].
    rewrite Hd.
    destruct (String.eqb name ""); [reflexivity|].
    rewrite Hd, Hl. reflexivity. }
  intros applied. unfold applied. rewrite Happly. cbn.
  split.
  { destruct themeName as [name|]; [destruct (String.eqb name "dark")|]; auto. }
  split; [reflexivity|]. split.
  { destruct themeName as [name|].
    - destruct (String.eqb name "dark") eqn:E.
      + apply String.eqb_eq in E. subst. tauto.
      + apply String.eqb_neq in E. split; [discriminate|]. intros [= ->]. congruence.
    - split; discriminate. }
  split; [exact Hinit|].
  rewrite Hinit, (Happly (Theme.theme st)).
  unfold Theme.initializeTheme at 1. cbn [Theme.theme].
  rewrite Happly. unfold Theme.valid, or_else.
  destruct (Theme.theme st) as [name|]; [|reflexivity].
  destruct (String.eqb name "dark"); reflexivity.
Qed.




Lemma find_head (new : Chat) (chatList : list Chat) :
  List.find (fun c => String.eqb (chat_id c) (chat_id new)) (new :: chatList)
  = Some new.
Proof. cbn. now rewrite String.eqb_refl. Qed.

(** X23. Starting a chat, in both modes, with a readable registry. In
    place, the new chat becomes the active one and the header shows its
    name. With a reload, nothing but the registry and the address changes:
    the script navigates to index.html?chatId=<new id>, and a page opened
    on that id makes the new chat active under its name without
    registering it again. *)
Theorem new_chat_is_opened
    (w : World) (page : Document) (children view : list Node)
    (title title' : string) :
  glintChatList (localStorage w) <> Some Malformed ->
  messagesEl (document w) = Some children ->
  chatTitleEl (document w) = Some title ->
  messagesEl page = Some view ->
  chatTitleEl page = Some title' ->
  let new := newChat w in
  let here := snd (startNewChat false w) in
  let leaving := snd (startNewChat true w) in
  let there := openPage page (Some (chat_id new)) leaving in
  currentChatId here = Some (chat_id new) /\
  chatTitleEl (document here) = Some (chat_name new) /\
  registry here = new :: registry w /\
  navigation leaving = Some ("index.html?chatId=" +:+ chat_id new) /\
  currentChatId leaving = currentChatId w /\
  document leaving = document w /\
  currentChatId there = Some (chat_id new) /\
  chatTitleEl (document there) = Some (chat_name new) /\
  registry there = new :: registry w.
Proof.
  intros Hok Hview Htitle Hpage Htitle' new here leaving there.
  assert (Ehere : here = chat_started w)
    by (unfold here; now rewrite (startNewChat_started w children Hview Hok)).
  assert (Eleaving : leaving
            = set_navigation (Some ("index.html?chatId=" +:+ chat_id new))
                (registered w))
    by (unfold leaving; now rewrite (startNewChat_reload w Hok)).
  destruct (chat_started_frame w) as (Hcur & Hreg & _).
  split; [rewrite Ehere; exact Hcur|].
  split.
  { rewrite Ehere. unfold chat_started, titled.
    destruct (pushed_frame (chat_id (newChat w)) (registered w))
      as (Hls & _ & _ & Hdoc & _).
    change (chatTitleEl (document (view_loaded ?c ?x)))
      with (chatTitleEl (document x)).
    cbn [document set_currentChatId]. rewrite Hdoc.
    change (document (registered w)) with (document w). rewrite Htitle.
    change (registry (view_loaded ?c ?x)) with (registry x).
    unfold registry at 1. cbn [localStorage set_currentChatId]. rewrite Hls.
    cbn [registered localStorage set_localStorage glintChatList set_glintChatList].
    rewrite find_head. reflexivity. }
  split; [rewrite Ehere; exact Hreg|].
  split; [rewrite Eleaving; reflexivity|].
  split; [rewrite Eleaving; reflexivity|].
  split; [rewrite Eleaving; reflexivity|].
  assert (Ethere : there
            = titled (chat_id new)
                (view_loaded (chat_id new)
                   (set_currentChatId (Some (chat_id new))
                      (set_navigation None
                         (set_search ("?chatId=" +:+ chat_id new)
                            (set_timers []
                               (set_currentChatId None
                                  (set_document page leaving)))))))).
  { unfold there, openPage, DOMContentLoaded, try_catch.
    change (truthy (Some (chat_id new))) with (Some (chat_id new)).
    unfold bind at 1, modify at 1.
    rewrite (loadChat_eq _ (chat_id new) view); [reflexivity| |].
    - exact Hpage.
    - rewrite Eleaving. discriminate. }
  rewrite Ethere.
  match goal with |- context [titled ?c ?x] =>
    destruct (titled_frame c x) as (Hls & Hcur' & _) end.
  split; [rewrite Hcur'; reflexivity|].
  split.
  { unfold titled.
    change (chatTitleEl (document (view_loaded ?c ?x)))
      with (chatTitleEl (document x)).
    cbn [document set_currentChatId set_navigation set_search set_timers set_document].
    rewrite Htitle'.
    change (registry (view_loaded ?c ?x)) with (registry x).
    rewrite Eleaving. unfold registry at 1.
    cbn [registered localStorage set_localStorage glintChatList set_glintChatList
         set_currentChatId set_navigation set_search set_timers set_document].
    fold new. rewrite find_head. reflexivity. }
  unfold registry. rewrite Hls, Eleaving. reflexivity.
Qed.

Lemma new_chat_is_opened_witness :
  let new := newChat first_visit in
  let here := snd (startNewChat false first_visit) in
  let leaving := snd (startNewChat true first_visit) in
  let there := openPage chat_page (Some (chat_id new)) leaving in
  currentChatId here = Some (chat_id new) /\
  chatTitleEl (document here) = Some (chat_name new) /\
  registry here = new :: registry first_visit /\
  navigation leaving = Some ("index.html?chatId=" +:+ chat_id new) /\
  currentChatId leaving = currentChatId first_visit /\
  document leaving = document first_visit /\
  currentChatId there = Some (chat_id new) /\
  chatTitleEl (document there) = Some (chat_name new) /\
  registry there = new :: registry first_visit.
Proof.
  apply (new_chat_is_opened first_visit chat_page [] [] "" "").
  - discriminate.
  - reflexivity.
  - reflexivity.
  - reflexivity.
  - reflexivity.
Defined.

(** X24. [saveCurrentChat] writes one thing: the view, under the history
    key of the active chat. The histories of the other chats, the
    registry, the media index, the keys and the language stay as they
    are, and with no chat active or no message view nothing is written. *)
Theorem saveCurrentChat_frame (w : World) :
  let saved := snd (saveCurrentChat w) in
  (forall other, truthy (currentChatId w) <> Some other ->
     historyOf saved other = historyOf w other) /\
  registry saved = registry w /\
  (forall chatId, mediaOf saved chatId = mediaOf w chatId) /\
  (forall type, getApiKey (localStorage saved) type
                = getApiKey (localStorage w) type) /\
  selectedLanguage (localStorage saved) = selectedLanguage (localStorage w) /\
  document saved = document w /\
  (truthy (currentChatId w) = None \/ messagesEl (document w) = None ->
   saved = w).
Proof.
  destruct w as [b n c ls d t f s nav].
  unfold saveCurrentChat, bind, gets, modify. cbn [currentChatId].
  destruct (truthy c) as [chatId|] eqn:Hc; cbn.
  - destruct (messagesEl d) as [children|] eqn:Hm; cbn.
    + repeat split; try reflexivity.
      * intros other Hother. unfold historyOf. cbn.
        rewrite lookup_insert_ne by congruence. reflexivity.
      * intros [H|H]; discriminate.
    + repeat split; reflexivity.
  - repeat split; reflexivity.
Qed.







